(** * fragcrawl: the per-URL normalizer and the batch partition of [api.py]

    A shallow embedding of [process_url] and [scrape_fragrances]
    (src/api.py; the same normalizer is inlined in
    [extract_fragrance_data], src/app.py).

    Modelling choices.
    - A Python [str] is a [string]; each [ascii] stands for one character
      with code point below 256.
    - A decoded JSON document is a [json] value; its numbers are the
      integers (the schema yields no number).  A Python [dict] is an
      association list in insertion order with the operations [dict_get],
      [dict_set], [dict_del] and [dict_in]; [json.loads] yields dicts with
      distinct keys, and the operations keep them distinct.
    - A Python exception is a value of [exn]; code that may raise lives in
      the error monad [exc].
    - The crawler session, [json.loads], [urlparse], [unquote] and the
      text of [str(e)] are library code: they are the fields of [Runtime].
      The crawler is taken as a function of the URL (cache mode BYPASS),
      and [asyncio.gather] as the in-order map it returns.
    - [extract_fragrance_data] (src/app.py) and [run_scraper] with its
      loop (src/simple_api.py) are embedded after the pipeline; opening
      the output file and running the scraper process are parameters of
      their sections. *)

From Stdlib Require Import String Ascii List ZArith Bool Lia Permutation.
Import ListNotations.
Set Warnings "-register-all".
Open Scope string_scope.
Open Scope list_scope.

(* ------------------------------------------------------------------ *)
(** ** Python string operations used by the normalizer *)

Module PyStr.

(** [s.startswith(p)] *)
Fixpoint startswith (p s : string) : bool :=
  match p, s with
  | EmptyString, _ => true
  | String _ _, EmptyString => false
  | String a p', String b s' => Ascii.eqb a b && startswith p' s'
  end.

(** Left-to-right scan behind [str.split(sep)] for a non-empty [sep]:
    [skip] counts the characters of a separator still to be consumed,
    [cur] is the piece being accumulated. *)
Fixpoint split_scan (sep : string) (skip : nat) (cur : string) (s : string)
  : list string :=
  match s with
  | EmptyString => [cur]
  | String c s' =>
      match skip with
      | S k => split_scan sep k cur s'
      | O =>
          if startswith sep s
          then cur :: split_scan sep (String.length sep - 1) EmptyString s'
          else split_scan sep O (cur ++ String c EmptyString)%string s'
      end
  end.

(** [s.split(sep)], [sep] non-empty (the three call sites pass the
    literals '/', '.html' and '-'). *)
Definition split (sep s : string) : list string :=
  split_scan sep O EmptyString s.

(** Left-to-right scan behind [str.replace(old, new)] for a non-empty
    [old]: every non-overlapping occurrence is replaced. *)
Fixpoint replace_scan (old new : string) (skip : nat) (s : string) : string :=
  match s with
  | EmptyString => EmptyString
  | String c s' =>
      match skip with
      | S k => replace_scan old new k s'
      | O =>
          if startswith old s
          then (new ++ replace_scan old new (String.length old - 1) s')%string
          else String c (replace_scan old new O s')
      end
  end.

(** [new] inserted before every character and at the end: what
    [str.replace("", new)] does. *)
Fixpoint intersperse (new s : string) : string :=
  match s with
  | EmptyString => new
  | String c s' => (new ++ String c (intersperse new s'))%string
  end.

(** [s.replace(old, new)] *)
Definition replace (old new s : string) : string :=
  match old with
  | EmptyString => intersperse new s
  | String _ _ => replace_scan old new O s
  end.

(** [sep.join(parts)] *)
Fixpoint join (sep : string) (parts : list string) : string :=
  match parts with
  | [] => EmptyString
  | [p] => p
  | p :: rest => (p ++ sep ++ join sep rest)%string
  end.

(** One character of [str.isdigit] on code points below 256: the ASCII
    digits and the superscript digits U+00B2, U+00B3, U+00B9. *)
Definition isdigit_char (c : ascii) : bool :=
  let n := nat_of_ascii c in
  (((48 <=? n) && (n <=? 57)) || (n =? 178) || (n =? 179) || (n =? 185))%nat.

Fixpoint all_digits (s : string) : bool :=
  match s with
  | EmptyString => true
  | String c s' => isdigit_char c && all_digits s'
  end.

(** [s.isdigit()]: at least one character, all of them digits. *)
Definition isdigit (s : string) : bool :=
  match s with
  | EmptyString => false
  | String _ _ => all_digits s
  end.

(** The characters of [s], as iteration over a [str] yields them. *)
Fixpoint chars (s : string) : list string :=
  match s with
  | EmptyString => []
  | String c s' => String c EmptyString :: chars s'
  end.

End PyStr.

(* ------------------------------------------------------------------ *)
(** ** JSON values and Python dicts *)

Inductive json : Type :=
| JNull
| JBool (b : bool)
| JNum (n : Z)
| JStr (s : string)
| JArr (l : list json)
| JObj (d : list (string * json)).

Definition dict := list (string * json).

(** [k in d] *)
Fixpoint dict_in (k : string) (d : dict) : bool :=
  match d with
  | [] => false
  | (k', _) :: d' => String.eqb k k' || dict_in k d'
  end.

(** [d.get(k)]: [None] when the key is missing. *)
Fixpoint dict_get (k : string) (d : dict) : option json :=
  match d with
  | [] => None
  | (k', v) :: d' => if String.eqb k k' then Some v else dict_get k d'
  end.

(** [d[k] = v]: an existing key keeps its position, a new one goes last. *)
Fixpoint dict_set (k : string) (v : json) (d : dict) : dict :=
  match d with
  | [] => [(k, v)]
  | (k', v') :: d' =>
      if String.eqb k k' then (k, v) :: d' else (k', v') :: dict_set k v d'
  end.

(** [del d[k]] for a key known to be present. *)
Definition dict_del (k : string) (d : dict) : dict :=
  filter (fun kv => negb (String.eqb k (fst kv))) d.

Definition dict_keys (d : dict) : list string := map fst d.

(** [bool(v)] *)
Definition truthy (v : json) : bool :=
  match v with
  | JNull => false
  | JBool b => b
  | JNum n => negb (Z.eqb n 0)
  | JStr s => negb (String.eqb s EmptyString)
  | JArr l => match l with [] => false | _ :: _ => true end
  | JObj d => match d with [] => false | _ :: _ => true end
  end.

(* ------------------------------------------------------------------ *)
(** ** Exceptions and the error monad *)

Inductive exn : Type :=
| JSONDecodeError (msg : string)
| KeyError (key : string)
| KeyErrorInt (key : Z)
| TypeError
| AttributeError
| OtherException (name : string).

Definition is_JSONDecodeError (e : exn) : bool :=
  match e with JSONDecodeError _ => true | _ => false end.

Definition exc (A : Type) : Type := (exn + A)%type.

Definition ret {A} (a : A) : exc A := inr a.
Definition raise {A} (e : exn) : exc A := inl e.
Definition bind {A B} (m : exc A) (k : A -> exc B) : exc B :=
  match m with
  | inl e => inl e
  | inr a => k a
  end.

Notation "x <- m ;; k" := (bind m (fun x => k))
  (at level 61, m at next level, right associativity).

Fixpoint mapM {A B} (f : A -> exc B) (l : list A) : exc (list B) :=
  match l with
  | [] => ret []
  | a :: l' => b <- f a ;; bs <- mapM f l' ;; ret (b :: bs)
  end.

(** [len(v)] *)
Definition py_len (v : json) : exc nat :=
  match v with
  | JStr s => ret (String.length s)
  | JArr l => ret (List.length l)
  | JObj d => ret (List.length d)
  | _ => raise TypeError
  end.

(** [v[0]] *)
Definition getitem0 (v : json) : exc json :=
  match v with
  | JArr (x :: _) => ret x
  | JArr [] => raise (OtherException "IndexError")
  | JStr (String c _) => ret (JStr (String c EmptyString))
  | JStr EmptyString => raise (OtherException "IndexError")
  | JObj _ => raise (KeyErrorInt 0)
  | _ => raise TypeError
  end.

(** [v[k]] for a string key [k] *)
Definition getitem (v : json) (k : string) : exc json :=
  match v with
  | JObj d =>
      match dict_get k d with
      | Some x => ret x
      | None => raise (KeyError k)
      end
  | _ => raise TypeError
  end.

(** The elements [for x in v] visits. *)
Definition py_iter (v : json) : exc (list json) :=
  match v with
  | JArr l => ret l
  | JStr s => ret (map JStr (PyStr.chars s))
  | JObj d => ret (map JStr (dict_keys d))
  | _ => raise TypeError
  end.

(** [title.replace(sex, "")]: [str.replace] exists on strings only and
    takes strings only. *)
Definition str_replace_method (title sex : json) : exc json :=
  match title with
  | JStr t =>
      match sex with
      | JStr s => ret (JStr (PyStr.replace s EmptyString t))
      | _ => raise TypeError
      end
  | _ => raise AttributeError
  end.

(* ------------------------------------------------------------------ *)
(** ** The library code the pipeline calls *)

(** What [crawler.arun] returns: the fields [process_url] reads.
    [error_message] is the text the f-string renders. *)
Record crawl_result : Type := {
  success : bool;
  error_message : string;
  extracted_content : option string
}.

Record Runtime : Type := {
  (** [await crawler.arun(url=url, config=config)] *)
  arun : string -> exc crawl_result;
  (** [json.loads] on a [str] *)
  json_loads : string -> exc json;
  (** [urlparse(url).path] *)
  urlparse_path : string -> exc string;
  (** [unquote] *)
  unquote : string -> string;
  (** [str(e)] *)
  exn_str : exn -> string
}.

(* ------------------------------------------------------------------ *)
(** ** The normalizer (api.py, lines 208-277) *)

(** [{"error": msg}] *)
Definition error_entry (msg : string) : dict := [("error", JStr msg)].

(** Lines 208-210: [item["accords"] = [accord["text"] for accord in
    item["accords"]]] when the key is there. *)
Definition flatten_accords (item : dict) : exc dict :=
  match dict_get "accords" item with
  | Some v =>
      accords <- py_iter v ;;
      texts <- mapM (fun accord => getitem accord "text") accords ;;
      ret (dict_set "accords" (JArr texts) item)
  | None => ret item
  end.

(** ["k" in item and item["k"]] *)
Definition flag_set (k : string) (item : dict) : bool :=
  match dict_get k item with
  | Some v => truthy v
  | None => false
  end.

(** Lines 216-222. *)
Definition has_classified_notes (item : dict) : bool :=
  flag_set "has_top_notes" item
  || flag_set "has_middle_notes" item
  || flag_set "has_base_notes" item.

(** Lines 225-240, one category: the state is the pair of [item] and
    [notes]. *)
Definition move_notes (raw cat : string) (st : dict * dict) : dict * dict :=
  let (item, notes) := st in
  match dict_get raw item with
  | Some v =>
      (dict_del raw item, if truthy v then dict_set cat v notes else notes)
  | None => (item, notes)
  end.

(** Lines 243-246. *)
Definition move_unclassified (classified : bool) (st : dict * dict)
  : dict * dict :=
  let (item, notes) := st in
  match dict_get "unclassified_notes" item with
  | Some v =>
      (dict_del "unclassified_notes" item,
       if negb classified && truthy v
       then dict_set "unclassified" v notes else notes)
  | None => (item, notes)
  end.

(** [if k in item: del item[k]] *)
Definition drop_key (k : string) (item : dict) : dict :=
  if dict_in k item then dict_del k item else item.

(** The pair of [item] and [notes] after lines 213-254. *)
Definition notes_state (item : dict) : dict * dict :=
  let classified := has_classified_notes item in
  let st := move_notes "top_notes" "top" (item, []) in
  let st := move_notes "middle_notes" "middle" st in
  let st := move_notes "base_notes" "base" st in
  let (item, notes) := move_unclassified classified st in
  let item := drop_key "has_top_notes" item in
  let item := drop_key "has_middle_notes" item in
  let item := drop_key "has_base_notes" item in
  (item, notes).

(** Lines 213-257. *)
Definition classify_notes (item : dict) : dict :=
  let (item, notes) := notes_state item in
  dict_set "notes" (JObj notes) item.

(** Lines 267-269: the perfume name read off the fourth path part. *)
Definition perfume_name_of (part : string) : string :=
  let perfume_name_raw := hd EmptyString (PyStr.split ".html" part) in
  let tokens := PyStr.split "-" perfume_name_raw in
  PyStr.join " "
    (if PyStr.isdigit (last tokens EmptyString)
     then removelast tokens else tokens).

(** Line 262: [len(path_parts) >= 4 and path_parts[1] == "perfume"] *)
Definition perfume_shape (path_parts : list string) : bool :=
  (4 <=? List.length path_parts)%nat
  && String.eqb (nth 1 path_parts EmptyString) "perfume".

(** Lines 276-277. *)
Definition clean_title (item : dict) : exc dict :=
  match dict_get "sex" item with
  | Some sex =>
      if truthy sex then
        match dict_get "title" item with
        | Some title =>
            cleaned <- str_replace_method title sex ;;
            ret (dict_set "title" cleaned item)
        | None => ret item
        end
      else ret item
  | None => ret item
  end.

(** Lines 262-277, once [path_parts] is known. *)
Definition derive_identity (path_parts : list string) (item : dict)
  : exc dict :=
  if perfume_shape path_parts then
    let house := PyStr.replace "-" " " (nth 2 path_parts EmptyString) in
    let perfume_name := perfume_name_of (nth 3 path_parts EmptyString) in
    let item := dict_set "house" (JStr house) item in
    let item := dict_set "perfume_name" (JStr perfume_name) item in
    clean_title item
  else ret item.

Section Pipeline.

Variable rt : Runtime.

(** Lines 260-261. *)
Definition path_parts_of (url : string) : exc (list string) :=
  path <- urlparse_path rt url ;;
  ret (PyStr.split "/" (unquote rt path)).

(** Lines 208-279: the transform applied to [item = data[0]] when it is
    a dict. *)
Definition normalize (url : string) (item : dict) : exc dict :=
  item <- flatten_accords item ;;
  let item := classify_notes item in
  path_parts <- path_parts_of url ;;
  derive_identity path_parts item.

(** [json.loads(result.extracted_content)]; [None] is not a [str]. *)
Definition loads (content : option string) : exc json :=
  match content with
  | Some s => json_loads rt s
  | None => raise TypeError
  end.

(** Line 202: [not data or len(data) == 0] *)
Definition no_data (data : json) : exc bool :=
  if negb (truthy data) then ret true
  else n <- py_len data ;; ret (n =? 0)%nat.

(** The body of the [try] of [process_url], lines 177-279.  An [item]
    that is not a dict raises [TypeError] on every path: [in] is not
    defined on None, booleans and numbers, and a [str] or a [list]
    accepts neither [item["k"]] nor, at the latest, line 257's
    [item["notes"] = notes]. *)
Definition process_url_body (url : string) : exc dict :=
  result <- arun rt url ;;
  if negb (success result) then
    ret (error_entry
           ("Failed to crawl " ++ url ++ ": " ++ error_message result)%string)
  else
    match loads (extracted_content result) with
    | inl e =>
        if is_JSONDecodeError e then
          ret (error_entry
                 ("Failed to parse JSON from " ++ url ++ ": "
                    ++ exn_str rt e)%string)
        else raise e
    | inr data =>
        empty <- no_data data ;;
        if (empty : bool) then
          ret (error_entry ("No data extracted from " ++ url)%string)
        else
          item <- getitem0 data ;;
          match item with
          | JObj d => normalize url d
          | _ => raise TypeError
          end
    end.

(** [process_url], lines 174-281: the [except Exception] turns whatever
    the body raised into an error dict. *)
Definition process_url (url : string) : dict :=
  match process_url_body url with
  | inr d => d
  | inl e =>
      error_entry ("Error processing " ++ url ++ ": " ++ exn_str rt e)%string
  end.

(** One turn of the loop of lines 311-315 on the pair
    [(results, errors)]. *)
Definition collect (acc : list dict * list dict) (result : dict)
  : list dict * list dict :=
  let (results, errors) := acc in
  if dict_in "error" result
  then (results, errors ++ [result])
  else (results ++ [result], errors).

(** [scrape_fragrances], lines 302-317: the arguments handed to
    [ScrapeResponse]. *)
Definition scrape_fragrances (urls : list string) : list dict * list dict :=
  let processed_results := map process_url urls in
  fold_left collect processed_results ([], []).

End Pipeline.

(* ------------------------------------------------------------------ *)
(** ** The schema and what a raw record is *)

(** The field names of [css_schema] (api.py, lines 20-135). *)
Definition schema_fields : list string :=
  [ "title"; "sex"; "image"; "accords";
    "has_top_notes"; "has_middle_notes"; "has_base_notes";
    "top_notes"; "middle_notes"; "base_notes"; "unclassified_notes" ].

(** A raw record carries schema fields only. *)
Definition raw_record (item : dict) : Prop :=
  forallb (fun k => existsb (String.eqb k) schema_fields) (dict_keys item)
  = true.

(** A raw notes field that is present with content. *)
Definition content (raw : string) (item : dict) : option json :=
  match dict_get raw item with
  | Some v => if truthy v then Some v else None
  | None => None
  end.

(** The three existence flags read by lines 217-222. *)
Definition flag_fields : list string :=
  ["has_top_notes"; "has_middle_notes"; "has_base_notes"].

(** The fields lines 225-254 delete. *)
Definition removed_fields : list string :=
  [ "has_base_notes"; "has_middle_notes"; "has_top_notes";
    "unclassified_notes"; "base_notes"; "middle_notes"; "top_notes" ].

(** The entry of [notes] under [k] once line 246 has run. *)
Definition notes_entry (item : dict) (k : string) : option json :=
  if String.eqb "unclassified" k then
    if has_classified_notes item then None
    else content "unclassified_notes" item
  else if String.eqb "base" k then content "base_notes" item
  else if String.eqb "middle" k then content "middle_notes" item
  else if String.eqb "top" k then content "top_notes" item
  else None.

(** Each category with content has its existence flag set, as the
    selectors of [css_schema] pair them. *)
Definition flags_cover_notes (item : dict) : Prop :=
  (content "top_notes" item <> None -> flag_set "has_top_notes" item = true)
  /\ (content "middle_notes" item <> None ->
      flag_set "has_middle_notes" item = true)
  /\ (content "base_notes" item <> None ->
      flag_set "has_base_notes" item = true).

(** An accord entry [{"text": t, ...}] with a string [t]. *)
Definition accord_with_text (accord : json) (t : string) : Prop :=
  exists d, accord = JObj d /\ dict_get "text" d = Some (JStr t).

(* ------------------------------------------------------------------ *)
(** ** Readings of the specification, for comparison with the code *)

(** [sub in s] on strings. *)
Fixpoint contains (sub s : string) : bool :=
  PyStr.startswith sub s
  || match s with
     | EmptyString => false
     | String _ s' => contains sub s'
     end.

(** An entry references [url] when one of its fields is a string in
    which [url] occurs; a [url] field holding it is the special case. *)
Definition references (url : string) (entry : dict) : bool :=
  existsb (fun kv => match snd kv with
                     | JStr s => contains url s
                     | _ => false
                     end) entry.

(** The two sequences a batch puts an outcome in. *)
Definition is_error (result : dict) : bool := dict_in "error" result.
Definition is_result (result : dict) : bool := negb (dict_in "error" result).

(** The error entry the specification describes for an empty
    extraction. *)
Definition spec_empty_error (url : string) : dict :=
  [("url", JStr url); ("message", JStr "no data extracted")].

Fixpoint drop_chars (n : nat) (s : string) : string :=
  match n, s with
  | S k, String _ s' => drop_chars k s'
  | _, _ => s
  end.

(** The title cleanup as the specification words it: only the first
    occurrence of [sub] is removed. *)
Fixpoint remove_first (sub s : string) : string :=
  match s with
  | EmptyString => EmptyString
  | String c s' =>
      if PyStr.startswith sub s then drop_chars (String.length sub) s
      else String c (remove_first sub s')
  end.

(** [s] up to the first occurrence of [sub]; all of [s] when there is
    none. *)
Fixpoint before_first (sub s : string) : string :=
  match s with
  | EmptyString => EmptyString
  | String c s' =>
      if PyStr.startswith sub s then EmptyString
      else String c (before_first sub s')
  end.

(** [s] with each ['-'] turned into a space. *)
Fixpoint dashes_to_spaces (s : string) : string :=
  match s with
  | EmptyString => EmptyString
  | String c s' =>
      String (if Ascii.eqb "-" c then " "%char else c) (dashes_to_spaces s')
  end.

(** [s] without a trailing [suffix], as the specification words the
    handling of [.html]. *)
Fixpoint strip_suffix (suffix s : string) : string :=
  match s with
  | EmptyString => EmptyString
  | String c s' =>
      if String.eqb s suffix then EmptyString
      else String c (strip_suffix suffix s')
  end.

(** The perfume name as the specification words it. *)
Definition spec_perfume_name (part : string) : string :=
  let tokens := PyStr.split "-" (strip_suffix ".html" part) in
  PyStr.join " "
    (if PyStr.isdigit (last tokens EmptyString)
     then removelast tokens else tokens).

(* ------------------------------------------------------------------ *)
(** ** A sample runtime *)

Module Sample.

Definition zino_url : string :=
  "https://www.fragrantica.com/perfume/Davidoff/Zino-Davidoff-590.html".
Definition swim_url : string :=
  "https://www.fragrantica.com/perfume/Louis-Vuitton/Afternoon-Swim-53947.html".
Definition bare_id_url : string :=
  "https://www.fragrantica.com/perfume/SomeHouse/590.html".
Definition news_url : string :=
  "https://www.fragrantica.com/news/Zino-590.html".
Definition odd_url : string :=
  "https://www.fragrantica.com/perfume/Davidoff/Eau.html-5".
Definition empty_url : string :=
  "https://www.fragrantica.com/perfume/Davidoff/Nothing-1.html".
Definition down_url : string :=
  "https://www.fragrantica.com/perfume/Davidoff/Timeout-2.html".
Definition broken_url : string :=
  "https://www.fragrantica.com/perfume/Davidoff/Broken-3.html".

Definition bergamot : json :=
  JObj [("name", JStr "Bergamot"); ("image", JStr "a.jpg")].
Definition musk : json :=
  JObj [("name", JStr "Musk"); ("image", JStr "m.jpg")].

(** The record of specification property 4, with title, sex and
    accords. *)
Definition zino_item : dict :=
  [ ("title", JStr "Zino for women and men");
    ("sex", JStr "for women and men");
    ("image", JStr "zino.jpg");
    ("accords", JArr [JObj [("text", JStr "Woody")];
                      JObj [("text", JStr "Spicy")]]);
    ("has_top_notes", JBool true);
    ("has_middle_notes", JBool false);
    ("has_base_notes", JBool false);
    ("top_notes", JArr [bergamot]);
    ("middle_notes", JArr []);
    ("base_notes", JArr []);
    ("unclassified_notes", JArr [musk]) ].

(** Specification property 5: no flag set, unclassified notes only. *)
Definition musk_item : dict :=
  [ ("title", JStr "Eau for men Sport for men");
    ("sex", JStr "for men");
    ("has_top_notes", JBool false);
    ("has_middle_notes", JBool false);
    ("has_base_notes", JBool false);
    ("unclassified_notes", JArr [musk]) ].

(** A record whose top notes are filled while no flag is set. *)
Definition mixed_item : dict :=
  [ ("title", JStr "Zino");
    ("has_top_notes", JBool false);
    ("top_notes", JArr [bergamot]);
    ("unclassified_notes", JArr [musk]) ].

(** A record with an accord entry that lacks [text]. *)
Definition broken_item : dict :=
  [ ("title", JStr "Broken");
    ("accords", JArr [JObj [("text", JStr "Woody")]; JObj []]) ].

(** The extracted content the sample session hands back, by URL; the
    content of a page is named by the URL it came from. *)
Definition sample_arun (url : string) : exc crawl_result :=
  if String.eqb url down_url then
    ret {| success := false; error_message := "timeout";
           extracted_content := None |}
  else
    ret {| success := true; error_message := "";
           extracted_content := Some url |}.

(** The decoded documents of the sample pages. *)
Definition sample_json_loads (text : string) : exc json :=
  if String.eqb text zino_url then ret (JArr [JObj zino_item])
  else if String.eqb text swim_url then ret (JArr [JObj musk_item])
  else if String.eqb text bare_id_url then ret (JArr [JObj musk_item])
  else if String.eqb text news_url then ret (JArr [JObj zino_item])
  else if String.eqb text odd_url then ret (JArr [JObj mixed_item])
  else if String.eqb text empty_url then ret (JArr [])
  else if String.eqb text broken_url then ret (JArr [JObj broken_item])
  else raise (JSONDecodeError "Expecting value").

Fixpoint from_slash (s : string) : string :=
  match s with
  | EmptyString => EmptyString
  | String c s' => if Ascii.eqb c "/" then s else from_slash s'
  end.

(** The path of a URL of the form [scheme://host/path], which is what
    [urlparse] gives when there are no params, query or fragment. *)
Definition sample_urlparse_path (url : string) : exc string :=
  match PyStr.split "://" url with
  | [_; rest] => ret (from_slash rest)
  | _ => ret url
  end.

(** [unquote] on a path without percent escapes; [str(e)] by class. *)
Definition sample_exn_str (e : exn) : string :=
  match e with
  | JSONDecodeError msg => msg
  | KeyError k => ("'" ++ k ++ "'")%string
  | KeyErrorInt _ => "0"
  | TypeError => "TypeError"
  | AttributeError => "AttributeError"
  | OtherException name => name
  end.

Definition rt : Runtime :=
  {| arun := sample_arun;
     json_loads := sample_json_loads;
     urlparse_path := sample_urlparse_path;
     unquote := fun path => path;
     exn_str := sample_exn_str |}.

(** What the normalizer returns on the sample records. *)
Definition run (url : string) (item : dict) : dict :=
  match normalize rt url item with
  | inr out => out
  | inl _ => []
  end.

Definition zino_out : dict := Eval vm_compute in run zino_url zino_item.
Definition musk_out : dict := Eval vm_compute in run swim_url musk_item.
Definition bare_id_out : dict := Eval vm_compute in run bare_id_url musk_item.
Definition news_out : dict := Eval vm_compute in run news_url zino_item.
Definition odd_out : dict := Eval vm_compute in run odd_url mixed_item.

End Sample.

(* ------------------------------------------------------------------ *)
(** ** Vocabulary for the further properties *)

(** The keys the normalizer may write or delete. *)
Definition touched_fields : list string :=
  "accords" :: "notes" :: "title" :: "house" :: "perfume_name"
  :: removed_fields.

(** The keys [notes] can get (lines 227, 233, 239, 245). *)
Definition note_categories : list string :=
  ["top"; "middle"; "base"; "unclassified"].

(** Both dicts of the notes state have distinct keys. *)
Definition distinct_pair (st : dict * dict) : Prop :=
  NoDup (dict_keys (fst st)) /\ NoDup (dict_keys (snd st)).

(** The cases in which lines 276-277 change nothing. *)
Definition title_kept (item : dict) : Prop :=
  dict_get "sex" item = None
  \/ dict_get "title" item = None
  \/ (exists sex, dict_get "sex" item = Some sex /\ truthy sex = false)
  \/ (exists s t,
         dict_get "sex" item = Some (JStr s)
         /\ dict_get "title" item = Some (JStr t)
         /\ contains s t = false).

(** The four messages [process_url] puts in an error entry (lines 190,
    198, 203 and 281). *)
Definition unit_error_message (url msg : string) : Prop :=
  (exists m, msg = ("Failed to crawl " ++ url ++ ": " ++ m)%string)
  \/ (exists m, msg = ("Failed to parse JSON from " ++ url ++ ": " ++ m)%string)
  \/ msg = ("No data extracted from " ++ url)%string
  \/ (exists m, msg = ("Error processing " ++ url ++ ": " ++ m)%string).

(** [c not in s] for a character [c]. *)
Fixpoint lacks (c : ascii) (s : string) : bool :=
  match s with
  | EmptyString => true
  | String c' s' => negb (Ascii.eqb c c') && lacks c s'
  end.

(* ------------------------------------------------------------------ *)
(** ** The command-line extractor (app.py, lines 126-363) *)

(** What a call of [extract_fragrance_data] leaves behind: the value it
    returns ([None] or the item) and, when it wrote one, the output
    file with the item handed to [json.dump]. *)
Record cli_outcome : Type := {
  result_data : option dict;
  written : option (string * dict)
}.

Section Cli.

Variable rt : Runtime.

(** [open(output_file, 'w')], which may raise. *)
Variable open_w : string -> exc unit.

(** Line 272: [data and len(data) > 0] *)
Definition has_data (data : json) : exc bool :=
  if truthy data then n <- py_len data ;; ret (0 <? n)%nat
  else ret false.

(** Lines 355-357: [if output_file: json.dump(item, f, indent=4)] *)
Definition save_item (output_file : option string) (item : dict)
  : exc (option (string * dict)) :=
  match output_file with
  | Some path =>
      if truthy (JStr path) then
        _ <- open_w path ;; ret (Some (path, item))
      else ret None
  | None => ret None
  end.

(** [extract_fragrance_data], lines 253-363.  Nothing is caught here:
    what [arun], [json.loads], the normalizer or [open] raise leaves the
    function.  The normalizer of lines 276-345 is that of api.py, line
    for line. *)
Definition extract_fragrance_data (url : string)
           (output_file : option string) : exc cli_outcome :=
  result <- arun rt url ;;
  if success result then
    data <- loads rt (extracted_content result) ;;
    ok <- has_data data ;;
    if (ok : bool) then
      item <- getitem0 data ;;
      match item with
      | JObj d =>
          item <- normalize rt url d ;;
          file <- save_item output_file item ;;
          ret {| result_data := Some item; written := file |}
      | _ => raise TypeError
      end
    else ret {| result_data := None; written := None |}
  else ret {| result_data := None; written := None |}.

End Cli.

(* ------------------------------------------------------------------ *)
(** ** The subprocess API (simple_api.py) *)

(** How lines 52-75 of [run_scraper] can go up to reading the file. *)
Inductive proc_outcome : Type :=
| ProcRaised (e : exn)
    (** the temporary file, [subprocess.run] or [open] raised something
        other than [CalledProcessError] *)
| ProcFailed (stderr : string)
    (** the scraper exited with a non-zero status: [check=True] raises
        [CalledProcessError] *)
| ProcDone (text : string)
    (** the scraper exited with status 0; [text] is what the temporary
        file holds afterwards *).

(** ["k" in v] for a string [k]: a key of a dict, an element of a list,
    a substring of a string. *)
Definition py_in_str (k : string) (v : json) : exc bool :=
  match v with
  | JObj d => ret (dict_in k d)
  | JArr l =>
      ret (existsb (fun x => match x with
                             | JStr s => String.eqb s k
                             | _ => false
                             end) l)
  | JStr s => ret (contains k s)
  | _ => raise TypeError
  end.

Section SimpleApi.

Variable rt : Runtime.

(** Running [python app.py --url url --output <temp file>]. *)
Variable run_app : string -> proc_outcome.

(** [run_scraper], simple_api.py lines 48-81; [json.load(f)] is
    [json.loads] of the text of the file. *)
Definition run_scraper (url : string) : json :=
  match run_app url with
  | ProcFailed stderr =>
      JObj (error_entry ("Failed to scrape " ++ url ++ ": " ++ stderr)%string)
  | ProcRaised e =>
      JObj (error_entry
              ("Error processing " ++ url ++ ": " ++ exn_str rt e)%string)
  | ProcDone text =>
      match json_loads rt text with
      | inr result => result
      | inl e =>
          JObj (error_entry
                  ("Error processing " ++ url ++ ": " ++ exn_str rt e)%string)
      end
  end.

(** One turn of the loop of lines 92-98. *)
Definition simple_collect (acc : list json * list json) (url : string)
  : exc (list json * list json) :=
  let (results, errors) := acc in
  let result := run_scraper url in
  is_err <- py_in_str "error" result ;;
  if (is_err : bool) then ret (results, errors ++ [result])
  else ret (results ++ [result], errors).

Fixpoint simple_loop (urls : list string) (acc : list json * list json)
  : exc (list json * list json) :=
  match urls with
  | [] => ret acc
  | url :: rest => acc' <- simple_collect acc url ;; simple_loop rest acc'
  end.

(** [scrape_fragrances] of simple_api.py, lines 84-100: the arguments
    handed to [ScrapeResponse], or the exception that ends the loop. *)
Definition simple_scrape_fragrances (urls : list string)
  : exc (list json * list json) :=
  simple_loop urls ([], []).

(** The ways a scraper run ends in an error entry with message [msg]:
    a non-zero exit status, an exception around the run, or an output
    file that [json.load] cannot decode (an empty one for instance). *)
Definition scraper_failure (url msg : string) : Prop :=
  (exists stderr,
      run_app url = ProcFailed stderr
      /\ msg = ("Failed to scrape " ++ url ++ ": " ++ stderr)%string)
  \/ (exists e,
         run_app url = ProcRaised e
         /\ msg = ("Error processing " ++ url ++ ": " ++ exn_str rt e)%string)
  \/ (exists text e,
         run_app url = ProcDone text
         /\ json_loads rt text = inl e
         /\ msg = ("Error processing " ++ url ++ ": " ++ exn_str rt e)%string).

End SimpleApi.

(** Sample collaborators for the two other entry points. *)
Module SampleCli.

Definition sample_open_w (path : string) : exc unit :=
  if String.eqb path "/proc/denied.json"
  then raise (OtherException "PermissionError") else ret tt.

(** A scraper process per sample URL: a traceback for the broken page,
    an empty file where nothing was extracted, the item otherwise. *)
Definition sample_run_app (url : string) : proc_outcome :=
  if String.eqb url Sample.broken_url then ProcFailed "KeyError: 'text'"
  else if String.eqb url Sample.down_url then ProcDone ""
  else if String.eqb url Sample.empty_url then ProcDone ""
  else ProcDone url.

(** The decoded output files: the file of a page is named by its
    URL and holds the normalized record. *)
Definition sample_json_load (text : string) : exc json :=
  if String.eqb text Sample.zino_url then ret (JObj Sample.zino_out)
  else if String.eqb text Sample.swim_url then ret (JObj Sample.musk_out)
  else raise (JSONDecodeError "Expecting value").

Definition rt : Runtime :=
  {| arun := Sample.sample_arun;
     json_loads := sample_json_load;
     urlparse_path := Sample.sample_urlparse_path;
     unquote := fun path => path;
     exn_str := Sample.sample_exn_str |}.

End SampleCli.

(* ------------------------------------------------------------------ *)
(** ** Dict lemmas *)

Lemma dict_in_get (k : string) (d : dict) :
  dict_in k d = match dict_get k d with Some _ => true | None => false end.
Proof.
  induction d as [|[k' v] d IH]; simpl; [reflexivity|].
  destruct (String.eqb k k'); simpl; auto.
Qed.

Lemma dict_get_set_eq (k : string) (v : json) (d : dict) :
  dict_get k (dict_set k v d) = Some v.
Proof.
  induction d as [|[k' v'] d IH]; simpl.
  - now rewrite String.eqb_refl.
  - destruct (String.eqb k k') eqn:E; simpl.
    + now rewrite String.eqb_refl.
    + now rewrite E.
Qed.

Lemma dict_get_set_neq (k k' : string) (v : json) (d : dict) :
  String.eqb k k' = false ->
  dict_get k' (dict_set k v d) = dict_get k' d.
Proof.
  intros N. induction d as [|[k0 v0] d IH]; simpl.
  - rewrite String.eqb_sym. now rewrite N.
  - destruct (String.eqb k k0) eqn:E; simpl.
    + apply String.eqb_eq in E. subst k0.
      rewrite String.eqb_sym, N. reflexivity.
    + destruct (String.eqb k' k0); auto.
Qed.

Lemma dict_get_set (k k' : string) (v : json) (d : dict) :
  dict_get k' (dict_set k v d)
  = if String.eqb k k' then Some v else dict_get k' d.
Proof.
  destruct (String.eqb k k') eqn:E.
  - apply String.eqb_eq in E. subst. apply dict_get_set_eq.
  - now apply dict_get_set_neq.
Qed.

Lemma dict_get_del (k k' : string) (d : dict) :
  dict_get k' (dict_del k d)
  = if String.eqb k k' then None else dict_get k' d.
Proof.
  unfold dict_del. induction d as [|[k0 v0] d IH]; simpl.
  - now destruct (String.eqb k k').
  - destruct (String.eqb k k0) eqn:E0; simpl.
    + rewrite IH. destruct (String.eqb k k') eqn:E; [reflexivity|].
      apply String.eqb_eq in E0. subst k0.
      rewrite String.eqb_sym, E. reflexivity.
    + rewrite IH. destruct (String.eqb k' k0) eqn:E1; [|reflexivity].
      apply String.eqb_eq in E1. subst k0. now rewrite E0.
Qed.

Lemma dict_get_drop_key (k k' : string) (d : dict) :
  dict_get k' (drop_key k d)
  = if String.eqb k k' then None else dict_get k' d.
Proof.
  unfold drop_key. rewrite dict_in_get.
  destruct (dict_get k d) eqn:G.
  - apply dict_get_del.
  - destruct (String.eqb k k') eqn:E; [|reflexivity].
    apply String.eqb_eq in E. now subst.
Qed.

Lemma dict_in_false_get (k : string) (d : dict) :
  dict_in k d = false <-> dict_get k d = None.
Proof.
  rewrite dict_in_get. destruct (dict_get k d); split; congruence.
Qed.

(* ------------------------------------------------------------------ *)
(** ** The error monad *)

Lemma bind_inr {A B} (m : exc A) (k : A -> exc B) (b : B) :
  bind m k = inr b -> exists a, m = inr a /\ k a = inr b.
Proof.
  destruct m as [e|a]; simpl; [discriminate|]. intros H. now exists a.
Qed.

Lemma mapM_raises {A B} (f : A -> exc B) (l : list A) (x : A) (e : exn) :
  In x l -> f x = inl e -> exists e', mapM f l = inl e'.
Proof.
  induction l as [|a l IH]; simpl; [tauto|].
  intros [->|Hin] Hx.
  - rewrite Hx. simpl. now exists e.
  - destruct (f a) as [e0|b]; simpl; [now exists e0|].
    destruct (IH Hin Hx) as [e' ->]. simpl. now exists e'.
Qed.

Lemma mapM_Forall2 {A B} (f : A -> exc B) (l : list A) (r : list B) :
  Forall2 (fun a b => f a = inr b) l r -> mapM f l = inr r.
Proof.
  induction 1 as [|a b l r Hab _ IH]; simpl; [reflexivity|].
  rewrite Hab. simpl. rewrite IH. reflexivity.
Qed.

(* ------------------------------------------------------------------ *)
(** ** Note classification, step by step *)

Ltac notes_cases item :=
  destruct (has_classified_notes item);
  destruct (content "unclassified_notes" item),
           (content "base_notes" item),
           (content "middle_notes" item),
           (content "top_notes" item); reflexivity.

Lemma move_notes_item (raw cat k : string) (st : dict * dict) :
  dict_get k (fst (move_notes raw cat st))
  = if String.eqb raw k then None else dict_get k (fst st).
Proof.
  destruct st as [item notes]. unfold move_notes.
  destruct (dict_get raw item) eqn:G; cbn [fst snd].
  - apply dict_get_del.
  - destruct (String.eqb raw k) eqn:E; [|reflexivity].
    apply String.eqb_eq in E. now subst.
Qed.

Lemma content_move_notes (raw cat f : string) (st : dict * dict) :
  String.eqb raw f = false ->
  content f (fst (move_notes raw cat st)) = content f (fst st).
Proof.
  intros N. unfold content. now rewrite move_notes_item, N.
Qed.

Lemma move_notes_notes (raw cat k : string) (st : dict * dict) :
  dict_get k (snd (move_notes raw cat st))
  = match content raw (fst st) with
    | Some v => if String.eqb cat k then Some v else dict_get k (snd st)
    | None => dict_get k (snd st)
    end.
Proof.
  destruct st as [item notes]. unfold move_notes, content. cbn [fst snd].
  destruct (dict_get raw item) as [v|]; cbn [fst snd]; [|reflexivity].
  destruct (truthy v); [apply dict_get_set | reflexivity].
Qed.

Lemma move_unclassified_item (c : bool) (k : string) (st : dict * dict) :
  dict_get k (fst (move_unclassified c st))
  = if String.eqb "unclassified_notes" k then None else dict_get k (fst st).
Proof.
  destruct st as [item notes]. unfold move_unclassified.
  destruct (dict_get "unclassified_notes" item) eqn:G; cbn [fst snd].
  - apply dict_get_del.
  - destruct (String.eqb "unclassified_notes" k) eqn:E; [|reflexivity].
    apply String.eqb_eq in E. now subst.
Qed.

Lemma move_unclassified_notes (c : bool) (k : string) (st : dict * dict) :
  dict_get k (snd (move_unclassified c st))
  = match (if c then None else content "unclassified_notes" (fst st)) with
    | Some v => if String.eqb "unclassified" k then Some v
                else dict_get k (snd st)
    | None => dict_get k (snd st)
    end.
Proof.
  destruct st as [item notes]. unfold move_unclassified, content.
  cbn [fst snd].
  destruct (dict_get "unclassified_notes" item) as [v|]; cbn [fst snd].
  - destruct c; cbn [negb andb]; [reflexivity|].
    destruct (truthy v); [apply dict_get_set | reflexivity].
  - now destruct c.
Qed.

Lemma notes_state_item (item : dict) (k : string) :
  dict_get k (fst (notes_state item))
  = if existsb (fun f => String.eqb f k) removed_fields then None
    else dict_get k item.
Proof.
  unfold notes_state.
  destruct (move_unclassified _ _) as [i n] eqn:U. cbn [fst].
  rewrite !dict_get_drop_key.
  replace i with (fst (move_unclassified (has_classified_notes item)
    (move_notes "base_notes" "base"
      (move_notes "middle_notes" "middle"
        (move_notes "top_notes" "top" (item, []))))))
    by now rewrite U.
  rewrite move_unclassified_item, !move_notes_item. cbn [fst].
  unfold removed_fields, existsb.
  repeat match goal with
    | |- context [String.eqb ?a k] => destruct (String.eqb a k)
    end; reflexivity.
Qed.

Lemma notes_state_notes (item : dict) (k : string) :
  dict_get k (snd (notes_state item)) = notes_entry item k.
Proof.
  unfold notes_state.
  destruct (move_unclassified _ _) as [i n] eqn:U. cbn [snd].
  replace n with (snd (move_unclassified (has_classified_notes item)
    (move_notes "base_notes" "base"
      (move_notes "middle_notes" "middle"
        (move_notes "top_notes" "top" (item, []))))))
    by now rewrite U.
  clear U i n.
  rewrite move_unclassified_notes, !move_notes_notes.
  rewrite !content_move_notes by reflexivity.
  cbn [fst snd dict_get]. unfold notes_entry.
  destruct (String.eqb "unclassified" k) eqn:E1.
  { apply String.eqb_eq in E1. subst k.
    change (String.eqb "base" "unclassified") with false.
    change (String.eqb "middle" "unclassified") with false.
    change (String.eqb "top" "unclassified") with false.
    notes_cases item. }
  destruct (String.eqb "base" k) eqn:E2.
  { apply String.eqb_eq in E2. subst k.
    change (String.eqb "middle" "base") with false.
    change (String.eqb "top" "base") with false.
    notes_cases item. }
  destruct (String.eqb "middle" k) eqn:E3.
  { apply String.eqb_eq in E3. subst k.
    change (String.eqb "top" "middle") with false.
    notes_cases item. }
  destruct (String.eqb "top" k); notes_cases item.
Qed.

(* ------------------------------------------------------------------ *)
(** ** What each normalizer step leaves alone *)

Lemma flatten_accords_get (item item1 : dict) (k : string) :
  flatten_accords item = inr item1 ->
  String.eqb "accords" k = false ->
  dict_get k item1 = dict_get k item.
Proof.
  unfold flatten_accords. intros H N.
  destruct (dict_get "accords" item) as [v|].
  - apply bind_inr in H. destruct H as [accords [_ H]].
    apply bind_inr in H. destruct H as [texts [_ H]].
    injection H as <-. now apply dict_get_set_neq.
  - now injection H as <-.
Qed.

Lemma flatten_accords_content (item item1 : dict) (raw : string) :
  flatten_accords item = inr item1 ->
  String.eqb "accords" raw = false ->
  content raw item1 = content raw item.
Proof.
  intros H N. unfold content. now rewrite (flatten_accords_get _ _ _ H N).
Qed.

Lemma flatten_accords_classified (item item1 : dict) :
  flatten_accords item = inr item1 ->
  has_classified_notes item1 = has_classified_notes item.
Proof.
  intros H. unfold has_classified_notes, flag_set.
  now rewrite !(flatten_accords_get _ _ _ H) by reflexivity.
Qed.

Lemma classify_notes_get (item : dict) (k : string) :
  dict_get k (classify_notes item)
  = if String.eqb "notes" k then Some (JObj (snd (notes_state item)))
    else if existsb (fun f => String.eqb f k) removed_fields then None
    else dict_get k item.
Proof.
  unfold classify_notes.
  destruct (notes_state item) as [i n] eqn:S.
  rewrite dict_get_set. cbn [snd].
  destruct (String.eqb "notes" k); [reflexivity|].
  rewrite <- notes_state_item, S. reflexivity.
Qed.

Lemma clean_title_get (item out : dict) (k : string) :
  clean_title item = inr out ->
  String.eqb "title" k = false ->
  dict_get k out = dict_get k item.
Proof.
  unfold clean_title. intros H N.
  destruct (dict_get "sex" item) as [sex|]; [|now injection H as <-].
  destruct (truthy sex); [|now injection H as <-].
  destruct (dict_get "title" item) as [title|]; [|now injection H as <-].
  apply bind_inr in H. destruct H as [cleaned [_ H]].
  injection H as <-. now apply dict_get_set_neq.
Qed.

Lemma derive_identity_get (parts : list string) (item out : dict)
      (k : string) :
  derive_identity parts item = inr out ->
  String.eqb "title" k = false ->
  String.eqb "house" k = false ->
  String.eqb "perfume_name" k = false ->
  dict_get k out = dict_get k item.
Proof.
  unfold derive_identity. intros H Nt Nh Np.
  destruct (perfume_shape parts).
  - rewrite (clean_title_get _ _ _ H Nt).
    now rewrite !dict_get_set_neq.
  - now injection H as <-.
Qed.

Lemma derive_identity_no_match (parts : list string) (item : dict) :
  perfume_shape parts = false -> derive_identity parts item = inr item.
Proof.
  unfold derive_identity. now intros ->.
Qed.

Lemma derive_identity_match (parts : list string) (item out : dict) :
  perfume_shape parts = true ->
  derive_identity parts item = inr out ->
  dict_get "house" out
  = Some (JStr (PyStr.replace "-" " " (nth 2 parts EmptyString)))
  /\ dict_get "perfume_name" out
     = Some (JStr (perfume_name_of (nth 3 parts EmptyString))).
Proof.
  unfold derive_identity. intros -> H.
  rewrite !(clean_title_get _ _ _ H) by reflexivity.
  rewrite dict_get_set_eq.
  rewrite dict_get_set_neq by reflexivity.
  now rewrite dict_get_set_eq.
Qed.

Lemma normalize_inv (rt : Runtime) (url : string) (item out : dict) :
  normalize rt url item = inr out ->
  exists item1 parts,
    flatten_accords item = inr item1
    /\ path_parts_of rt url = inr parts
    /\ derive_identity parts (classify_notes item1) = inr out.
Proof.
  unfold normalize. intros H.
  apply bind_inr in H. destruct H as [item1 [H1 H]].
  apply bind_inr in H. destruct H as [parts [H2 H]].
  now exists item1, parts.
Qed.

Lemma normalize_steps (rt : Runtime) (url : string) (item item1 : dict)
      (parts : list string) :
  flatten_accords item = inr item1 ->
  path_parts_of rt url = inr parts ->
  normalize rt url item = derive_identity parts (classify_notes item1).
Proof.
  unfold normalize. intros -> ->. reflexivity.
Qed.

(** The [notes] mapping of every record the normalizer returns. *)
Lemma normalize_notes (rt : Runtime) (url : string) (item out : dict) :
  normalize rt url item = inr out ->
  exists notes,
    dict_get "notes" out = Some (JObj notes)
    /\ forall k, dict_get k notes = notes_entry item k.
Proof.
  intros H. destruct (normalize_inv _ _ _ _ H) as (item1 & parts & F & _ & D).
  exists (snd (notes_state item1)). split.
  - rewrite (derive_identity_get _ _ _ _ D) by reflexivity.
    now rewrite classify_notes_get.
  - intros k. rewrite notes_state_notes. unfold notes_entry.
    rewrite (flatten_accords_classified _ _ F).
    now rewrite !(flatten_accords_content _ _ _ F) by reflexivity.
Qed.

Lemma normalize_removed (rt : Runtime) (url : string) (item out : dict)
      (k : string) :
  normalize rt url item = inr out ->
  In k removed_fields -> dict_in k out = false.
Proof.
  intros H Hk. destruct (normalize_inv _ _ _ _ H) as (item1 & parts & _ & _ & D).
  apply dict_in_false_get.
  unfold removed_fields in Hk. cbn [In] in Hk.
  repeat (destruct Hk as [<-|Hk];
          [rewrite (derive_identity_get _ _ _ _ D) by reflexivity;
           now rewrite classify_notes_get|]).
  contradiction.
Qed.

(* ------------------------------------------------------------------ *)
(** ** Note classification (claims C7 and C3) *)

Lemma flag_sets_classified (item : dict) (flag : string) (v : json) :
  In flag flag_fields ->
  dict_get flag item = Some v ->
  truthy v = true ->
  has_classified_notes item = true.
Proof.
  unfold flag_fields, has_classified_notes, flag_set.
  intros [<-|[<-|[<-|[]]]] G T; rewrite G, T.
  - reflexivity.
  - now rewrite orb_true_r.
  - now rewrite orb_true_r.
Qed.

(** C7: in every record the normalizer returns, [notes] holds under
    [top], [middle] and [base] exactly the raw [top_notes],
    [middle_notes] and [base_notes] values that were present and
    non-empty, unchanged (so in their order); none of the raw notes
    fields, the three [has_*] flags and [unclassified_notes] is a key of
    the output; and when one of the raw fields [has_top_notes],
    [has_middle_notes], [has_base_notes] is present and true there is
    no [unclassified] key in [notes], whatever [unclassified_notes]
    held. *)
Theorem note_classification (rt : Runtime) (url : string)
        (item out : dict) :
  normalize rt url item = inr out ->
  exists notes,
    dict_get "notes" out = Some (JObj notes)
    /\ dict_get "top" notes = content "top_notes" item
    /\ dict_get "middle" notes = content "middle_notes" item
    /\ dict_get "base" notes = content "base_notes" item
    /\ (forall k, In k removed_fields -> dict_in k out = false)
    /\ (forall flag v,
           In flag flag_fields ->
           dict_get flag item = Some v ->
           truthy v = true ->
           dict_in "unclassified" notes = false).
Proof.
  intros H. destruct (normalize_notes _ _ _ _ H) as (notes & Hn & Hk).
  exists notes. repeat split; try assumption.
  - now rewrite Hk.
  - now rewrite Hk.
  - now rewrite Hk.
  - intros k. now apply normalize_removed with (rt := rt) (url := url) (item := item).
  - intros flag v I G T.
    pose proof (flag_sets_classified _ _ _ I G T) as C.
    apply dict_in_false_get. rewrite Hk. unfold notes_entry.
    change (String.eqb "unclassified" "unclassified") with true.
    cbv iota. now rewrite C.
Qed.

Lemma note_classification_witness :
  normalize Sample.rt Sample.zino_url Sample.zino_item = inr Sample.zino_out
  /\ dict_get "has_top_notes" Sample.zino_item = Some (JBool true)
  /\ dict_get "unclassified_notes" Sample.zino_item
     = Some (JArr [Sample.musk])
  /\ exists notes,
      dict_get "notes" Sample.zino_out = Some (JObj notes)
      /\ notes = [("top", JArr [Sample.bergamot])]
      /\ dict_get "top" notes = Some (JArr [Sample.bergamot])
      /\ dict_get "middle" notes = None
      /\ dict_get "base" notes = None
      /\ (forall k, In k removed_fields -> dict_in k Sample.zino_out = false)
      /\ dict_in "unclassified" notes = false.
Proof.
  split; [reflexivity|]. split; [reflexivity|]. split; [reflexivity|].
  destruct (note_classification Sample.rt Sample.zino_url Sample.zino_item
              Sample.zino_out eq_refl)
    as (notes & Hn & Ht & Hm & Hb & Hr & Hu).
  exists notes. split; [exact Hn|].
  split; [injection Hn as <-; reflexivity|].
  split; [exact Ht|]. split; [exact Hm|]. split; [exact Hb|].
  split; [exact Hr|].
  exact (Hu "has_top_notes" (JBool true) (or_introl eq_refl)
           eq_refl eq_refl).
Defined.

(** C3, as the code has it: in every record the normalizer returns,
    [unclassified] is a key of [notes] only when none of the three
    [has_*] flags is true; and for a raw record in which every notes
    category with content has its flag true, [unclassified] is never
    there together with [top], [middle] or [base]. *)
Theorem notes_not_mixed (rt : Runtime) (url : string) (item out : dict) :
  normalize rt url item = inr out ->
  exists notes,
    dict_get "notes" out = Some (JObj notes)
    /\ (dict_in "unclassified" notes = true ->
        has_classified_notes item = false)
    /\ (flags_cover_notes item ->
        dict_in "unclassified" notes = true ->
        dict_in "top" notes = false
        /\ dict_in "middle" notes = false
        /\ dict_in "base" notes = false).
Proof.
  intros H. destruct (normalize_notes _ _ _ _ H) as (notes & Hn & Hk).
  exists notes. split; [assumption|].
  assert (U : dict_in "unclassified" notes = true ->
              has_classified_notes item = false).
  { rewrite dict_in_get, Hk. unfold notes_entry.
    change (String.eqb "unclassified" "unclassified") with true.
    cbv iota. destruct (has_classified_notes item); congruence. }
  split; [exact U|].
  intros (Ft & Fm & Fb) Hu. specialize (U Hu).
  unfold has_classified_notes in U.
  apply orb_false_iff in U. destruct U as [U Ub].
  apply orb_false_iff in U. destruct U as [Ut Um].
  rewrite !dict_in_get, !Hk. unfold notes_entry.
  change (String.eqb "unclassified" "top") with false.
  change (String.eqb "base" "top") with false.
  change (String.eqb "middle" "top") with false.
  change (String.eqb "top" "top") with true.
  change (String.eqb "unclassified" "middle") with false.
  change (String.eqb "base" "middle") with false.
  change (String.eqb "middle" "middle") with true.
  change (String.eqb "unclassified" "base") with false.
  change (String.eqb "base" "base") with true.
  cbv iota.
  destruct (content "top_notes" item) eqn:Ct.
  { rewrite Ft in Ut; [discriminate | discriminate]. }
  destruct (content "middle_notes" item) eqn:Cm.
  { rewrite Fm in Um; [discriminate | discriminate]. }
  destruct (content "base_notes" item) eqn:Cb.
  { rewrite Fb in Ub; [discriminate | discriminate]. }
  auto.
Qed.

Lemma notes_not_mixed_witness :
  normalize Sample.rt Sample.swim_url Sample.musk_item = inr Sample.musk_out
  /\ flags_cover_notes Sample.musk_item
  /\ exists notes,
      dict_get "notes" Sample.musk_out = Some (JObj notes)
      /\ dict_in "unclassified" notes = true
      /\ has_classified_notes Sample.musk_item = false
      /\ dict_in "top" notes = false
      /\ dict_in "middle" notes = false
      /\ dict_in "base" notes = false.
Proof.
  assert (F : flags_cover_notes Sample.musk_item).
  { repeat split; intros C; exfalso; apply C; reflexivity. }
  split; [reflexivity|]. split; [exact F|].
  destruct (notes_not_mixed Sample.rt Sample.swim_url Sample.musk_item
              Sample.musk_out eq_refl) as (notes & Hn & Hc & Hm).
  exists notes.
  assert (U : dict_in "unclassified" notes = true).
  { injection Hn as <-. reflexivity. }
  split; [exact Hn|]. split; [exact U|]. split; [exact (Hc U)|].
  exact (Hm F U).
Defined.

(** C3 as stated fails: a raw record whose [top_notes] has content while
    no [has_*] flag is true comes out with both [top] and [unclassified]
    in [notes]. *)
Lemma notes_mixed_counterexample :
  raw_record Sample.mixed_item
  /\ normalize Sample.rt Sample.odd_url Sample.mixed_item
     = inr Sample.odd_out
  /\ dict_get "notes" Sample.odd_out
     = Some (JObj [("top", JArr [Sample.bergamot]);
                   ("unclassified", JArr [Sample.musk])])
  /\ ~ (forall notes,
          dict_get "notes" Sample.odd_out = Some (JObj notes) ->
          dict_in "unclassified" notes = true ->
          dict_in "top" notes = false).
Proof.
  split; [reflexivity|]. split; [reflexivity|]. split; [reflexivity|].
  intros H.
  specialize (H _ eq_refl eq_refl). discriminate H.
Qed.

(* ------------------------------------------------------------------ *)
(** ** Accord flattening (claim C4) *)

Lemma flatten_accords_texts (item : dict) (accords : list json)
      (texts : list string) :
  dict_get "accords" item = Some (JArr accords) ->
  Forall2 accord_with_text accords texts ->
  flatten_accords item
  = inr (dict_set "accords" (JArr (map JStr texts)) item).
Proof.
  intros G F. unfold flatten_accords. rewrite G. cbn [py_iter bind ret].
  rewrite (mapM_Forall2 _ accords (map JStr texts)); [reflexivity|].
  clear G. induction F as [|a t l r (d & -> & Hd) _ IH]; cbn [map]; constructor.
  - unfold getitem. now rewrite Hd.
  - exact IH.
Qed.

Lemma flatten_accords_absent (item : dict) :
  dict_in "accords" item = false -> flatten_accords item = inr item.
Proof.
  intros H. apply dict_in_false_get in H.
  unfold flatten_accords. now rewrite H.
Qed.

(** What survives from the flattened record to the output under a key
    the later steps do not touch. *)
Lemma normalize_keeps (rt : Runtime) (url : string) (item item1 out : dict)
      (k : string) :
  flatten_accords item = inr item1 ->
  normalize rt url item = inr out ->
  String.eqb "notes" k = false ->
  existsb (fun f => String.eqb f k) removed_fields = false ->
  String.eqb "title" k = false ->
  String.eqb "house" k = false ->
  String.eqb "perfume_name" k = false ->
  dict_get k out = dict_get k item1.
Proof.
  intros F H Nn Nr Nt Nh Np.
  destruct (normalize_inv _ _ _ _ H) as (item1' & parts & F' & _ & D).
  rewrite F in F'. injection F' as <-.
  rewrite (derive_identity_get _ _ _ _ D Nt Nh Np).
  now rewrite classify_notes_get, Nn, Nr.
Qed.

(** C4, as the code has it: when [accords] is a sequence of mappings
    each holding a string under [text], the output [accords] is the
    sequence of those strings in the same order; when [accords] is
    absent from the raw record it is absent from the output too. *)
Theorem accord_flattening (rt : Runtime) (url : string) (item out : dict) :
  normalize rt url item = inr out ->
  (forall accords texts,
      dict_get "accords" item = Some (JArr accords) ->
      Forall2 accord_with_text accords texts ->
      dict_get "accords" out = Some (JArr (map JStr texts)))
  /\ (dict_in "accords" item = false -> dict_in "accords" out = false).
Proof.
  intros H. split.
  - intros accords texts G F.
    pose proof (flatten_accords_texts _ _ _ G F) as E.
    rewrite (normalize_keeps _ _ _ _ _ _ E H) by reflexivity.
    apply dict_get_set_eq.
  - intros A. pose proof (flatten_accords_absent _ A) as E.
    apply dict_in_false_get.
    rewrite (normalize_keeps _ _ _ _ _ _ E H) by reflexivity.
    now apply dict_in_false_get.
Qed.

Lemma accord_flattening_witness :
  normalize Sample.rt Sample.zino_url Sample.zino_item = inr Sample.zino_out
  /\ Forall2 accord_with_text
       [JObj [("text", JStr "Woody")]; JObj [("text", JStr "Spicy")]]
       ["Woody"; "Spicy"]
  /\ dict_get "accords" Sample.zino_out
     = Some (JArr [JStr "Woody"; JStr "Spicy"])
  /\ dict_in "accords" Sample.musk_item = false
  /\ dict_in "accords" Sample.musk_out = false.
Proof.
  assert (F : Forall2 accord_with_text
                [JObj [("text", JStr "Woody")]; JObj [("text", JStr "Spicy")]]
                ["Woody"; "Spicy"]).
  { repeat constructor; eexists; split; reflexivity. }
  split; [reflexivity|]. split; [exact F|]. split.
  - exact (proj1 (accord_flattening Sample.rt Sample.zino_url
                    Sample.zino_item Sample.zino_out eq_refl)
             _ _ eq_refl F).
  - split; [reflexivity|].
    exact (proj2 (accord_flattening Sample.rt Sample.swim_url
                    Sample.musk_item Sample.musk_out eq_refl)
             eq_refl).
Defined.

(** C4 as stated fails where [accords] is absent: the output has no
    [accords] key, so it does not hold the empty sequence. *)
Lemma accords_absent_counterexample :
  dict_in "accords" Sample.musk_item = false
  /\ normalize Sample.rt Sample.swim_url Sample.musk_item
     = inr Sample.musk_out
  /\ dict_get "accords" Sample.musk_out = None
  /\ dict_get "accords" Sample.musk_out <> Some (JArr []).
Proof.
  repeat split; try reflexivity. discriminate.
Qed.

(* ------------------------------------------------------------------ *)
(** ** Title cleanup (claim C2) *)

Lemma clean_title_strings (item : dict) (t s : string) :
  dict_get "title" item = Some (JStr t) ->
  dict_get "sex" item = Some (JStr s) ->
  s <> EmptyString ->
  clean_title item
  = inr (dict_set "title" (JStr (PyStr.replace s EmptyString t)) item).
Proof.
  intros Gt Gs Ns. unfold clean_title. rewrite Gs. cbn [truthy].
  destruct (String.eqb s EmptyString) eqn:E.
  - apply String.eqb_eq in E. contradiction.
  - cbn [negb]. rewrite Gt. reflexivity.
Qed.

(** C2, as the code has it: when the URL path has the perfume shape and
    [title] and [sex] are strings with [sex] non-empty, the normalizer
    returns a record (provided the accords step went through) whose
    [title] is the input title with every non-overlapping occurrence of
    [sex], scanning left to right, removed, and nothing trimmed. *)
Theorem title_cleanup (rt : Runtime) (url : string) (item item1 : dict)
        (parts : list string) (t s : string) :
  path_parts_of rt url = inr parts ->
  perfume_shape parts = true ->
  dict_get "title" item = Some (JStr t) ->
  dict_get "sex" item = Some (JStr s) ->
  s <> EmptyString ->
  flatten_accords item = inr item1 ->
  exists out,
    normalize rt url item = inr out
    /\ dict_get "title" out = Some (JStr (PyStr.replace s EmptyString t)).
Proof.
  intros P Sh Gt Gs Ns F.
  rewrite (normalize_steps _ _ _ _ _ F P).
  unfold derive_identity. rewrite Sh.
  set (item2 := dict_set "perfume_name" _ _).
  assert (K : forall k,
             String.eqb "notes" k = false ->
             existsb (fun f => String.eqb f k) removed_fields = false ->
             String.eqb "accords" k = false ->
             String.eqb "house" k = false ->
             String.eqb "perfume_name" k = false ->
             dict_get k item2 = dict_get k item).
  { intros k Nn Nr Na Nh Np. unfold item2.
    rewrite !dict_get_set_neq by assumption.
    rewrite classify_notes_get, Nn, Nr.
    now apply flatten_accords_get. }
  rewrite (clean_title_strings item2 t s).
  - eexists. split; [reflexivity|]. apply dict_get_set_eq.
  - now rewrite K.
  - now rewrite K.
  - exact Ns.
Qed.

Lemma title_cleanup_witness :
  normalize Sample.rt Sample.zino_url Sample.zino_item = inr Sample.zino_out
  /\ dict_get "title" Sample.zino_out = Some (JStr "Zino ").
Proof.
  destruct (title_cleanup Sample.rt Sample.zino_url Sample.zino_item
              (dict_set "accords" (JArr [JStr "Woody"; JStr "Spicy"])
                 Sample.zino_item)
              [""; "perfume"; "Davidoff"; "Zino-Davidoff-590.html"]
              "Zino for women and men" "for women and men"
              eq_refl eq_refl eq_refl eq_refl
              ltac:(discriminate) eq_refl) as (out & Hn & Ht).
  split; [reflexivity|].
  assert (E : out = Sample.zino_out).
  { assert (N : normalize Sample.rt Sample.zino_url Sample.zino_item
                = inr Sample.zino_out) by reflexivity.
    rewrite N in Hn. now injection Hn as <-. }
  rewrite <- E. exact Ht.
Defined.

(** C2 as stated fails when [sex] occurs more than once in [title]:
    every occurrence goes, not the first alone. *)
Lemma title_cleanup_counterexample :
  dict_get "title" Sample.musk_item
  = Some (JStr "Eau for men Sport for men")
  /\ dict_get "sex" Sample.musk_item = Some (JStr "for men")
  /\ normalize Sample.rt Sample.swim_url Sample.musk_item
     = inr Sample.musk_out
  /\ dict_get "title" Sample.musk_out = Some (JStr "Eau  Sport ")
  /\ remove_first "for men" "Eau for men Sport for men"
     = "Eau  Sport for men"
  /\ dict_get "title" Sample.musk_out
     <> Some (JStr (remove_first "for men" "Eau for men Sport for men")).
Proof.
  repeat split; try reflexivity. discriminate.
Qed.

(* ------------------------------------------------------------------ *)
(** ** House and perfume name from the URL (claims C5, C9 and C10) *)

Lemma append_nil_r (s : string) : (s ++ EmptyString)%string = s.
Proof. induction s; simpl; congruence. Qed.

Lemma append_snoc (s s' : string) (c : ascii) :
  ((s ++ String c EmptyString) ++ s')%string = (s ++ String c s')%string.
Proof. induction s; simpl; congruence. Qed.

Lemma digit_not_dash (c : ascii) :
  PyStr.isdigit_char c = true -> Ascii.eqb "-" c = false.
Proof.
  intros D. destruct (Ascii.eqb "-" c) eqn:E; [|reflexivity].
  apply Ascii.eqb_eq in E. subst c. discriminate D.
Qed.

(** A string of digits holds no ['-']: splitting gives it back whole. *)
Lemma split_dash_digits (s cur : string) :
  PyStr.all_digits s = true ->
  PyStr.split_scan "-" 0 cur s = [(cur ++ s)%string].
Proof.
  revert cur. induction s as [|c s IH]; intros cur D.
  - cbn [PyStr.split_scan]. now rewrite append_nil_r.
  - cbn [PyStr.all_digits] in D. apply andb_true_iff in D.
    destruct D as [Dc Ds].
    cbn [PyStr.split_scan PyStr.startswith].
    rewrite (digit_not_dash _ Dc). cbn [andb].
    rewrite IH by assumption. now rewrite append_snoc.
Qed.

Lemma isdigit_single_token (s : string) :
  PyStr.isdigit s = true -> PyStr.split "-" s = [s].
Proof.
  intros D. unfold PyStr.split. destruct s as [|c s]; [discriminate|].
  cbn [PyStr.isdigit] in D. now rewrite split_dash_digits.
Qed.

Lemma perfume_name_of_digits (part : string) :
  PyStr.isdigit (hd EmptyString (PyStr.split ".html" part)) = true ->
  perfume_name_of part = EmptyString.
Proof.
  intros D. unfold perfume_name_of.
  rewrite (isdigit_single_token _ D). cbn [last]. rewrite D. reflexivity.
Qed.

(** [part.split('.html')[0]] is [part] cut at the first [.html]. *)
Lemma hd_split_scan (sub cur s : string) :
  hd EmptyString (PyStr.split_scan sub 0 cur s)
  = (cur ++ before_first sub s)%string.
Proof.
  revert cur. induction s as [|c s IH]; intros cur.
  - cbn [PyStr.split_scan before_first hd]. now rewrite append_nil_r.
  - cbn [PyStr.split_scan before_first].
    destruct (PyStr.startswith sub (String c s)).
    + cbn [hd]. now rewrite append_nil_r.
    + rewrite IH. apply append_snoc.
Qed.

Lemma split_head_before_first (sub s : string) :
  hd EmptyString (PyStr.split sub s) = before_first sub s.
Proof. unfold PyStr.split. now rewrite hd_split_scan. Qed.

(** [part.replace('-', ' ')] works character by character. *)
Lemma replace_dash_chars (s : string) :
  PyStr.replace "-" " " s = dashes_to_spaces s.
Proof.
  unfold PyStr.replace.
  induction s as [|c s IH]; cbn [PyStr.replace_scan dashes_to_spaces];
    [reflexivity|].
  cbn [PyStr.startswith]. rewrite andb_true_r.
  change (String.length "-" - 1) with 0.
  rewrite IH. now destruct (Ascii.eqb "-" c).
Qed.

(** C5, as the code has it: when the decoded path, split on ['/'], has
    at least 4 parts and part 1 is [perfume], the output [house] is
    part 2 with every ['-'] replaced by a space, and the output
    [perfume_name] is part 3 cut at the first occurrence of [.html],
    split on ['-'], without its last token if and only if that token is
    all digits, joined with one space. *)
Theorem identity_from_url (rt : Runtime) (url : string) (item out : dict)
        (parts : list string) :
  path_parts_of rt url = inr parts ->
  perfume_shape parts = true ->
  normalize rt url item = inr out ->
  let tokens :=
    PyStr.split "-" (before_first ".html" (nth 3 parts EmptyString)) in
  dict_get "house" out
  = Some (JStr (dashes_to_spaces (nth 2 parts EmptyString)))
  /\ dict_get "perfume_name" out
     = Some (JStr (PyStr.join " "
                     (if PyStr.isdigit (last tokens EmptyString)
                      then removelast tokens else tokens))).
Proof.
  intros P Sh H tokens.
  destruct (normalize_inv _ _ _ _ H) as (item1 & parts' & _ & P' & D).
  rewrite P in P'. injection P' as <-.
  destruct (derive_identity_match _ _ _ Sh D) as [Hh Hp].
  rewrite Hh, Hp, replace_dash_chars. unfold perfume_name_of, tokens.
  now rewrite split_head_before_first.
Qed.

Lemma identity_from_url_witness :
  path_parts_of Sample.rt Sample.zino_url
  = inr [""; "perfume"; "Davidoff"; "Zino-Davidoff-590.html"]
  /\ normalize Sample.rt Sample.zino_url Sample.zino_item
     = inr Sample.zino_out
  /\ dict_get "house" Sample.zino_out = Some (JStr "Davidoff")
  /\ dict_get "perfume_name" Sample.zino_out = Some (JStr "Zino Davidoff").
Proof.
  split; [reflexivity|]. split; [reflexivity|].
  exact (identity_from_url Sample.rt Sample.zino_url Sample.zino_item
           Sample.zino_out
           [""; "perfume"; "Davidoff"; "Zino-Davidoff-590.html"]
           eq_refl eq_refl eq_refl).
Defined.

(** C5 as stated fails when [.html] is not just a suffix of part 3:
    the code cuts at its first occurrence. *)
Lemma html_suffix_counterexample :
  path_parts_of Sample.rt Sample.odd_url
  = inr [""; "perfume"; "Davidoff"; "Eau.html-5"]
  /\ normalize Sample.rt Sample.odd_url Sample.mixed_item
     = inr Sample.odd_out
  /\ dict_get "perfume_name" Sample.odd_out = Some (JStr "Eau")
  /\ spec_perfume_name "Eau.html-5" = "Eau.html"
  /\ dict_get "perfume_name" Sample.odd_out
     <> Some (JStr (spec_perfume_name "Eau.html-5")).
Proof.
  repeat split; try reflexivity. discriminate.
Qed.

(** C10: when the path has the perfume shape and part 3, cut at the
    first [.html], is one all-digit token, the output [perfume_name] is
    present and is the empty string, and [house] is set as usual. *)
Theorem bare_numeric_name (rt : Runtime) (url : string) (item out : dict)
        (parts : list string) :
  path_parts_of rt url = inr parts ->
  perfume_shape parts = true ->
  PyStr.isdigit
    (hd EmptyString (PyStr.split ".html" (nth 3 parts EmptyString))) = true ->
  normalize rt url item = inr out ->
  dict_get "perfume_name" out = Some (JStr EmptyString)
  /\ dict_get "house" out
     = Some (JStr (PyStr.replace "-" " " (nth 2 parts EmptyString))).
Proof.
  intros P Sh D H.
  destruct (normalize_inv _ _ _ _ H) as (item1 & parts' & _ & P' & Dv).
  rewrite P in P'. injection P' as <-.
  destruct (derive_identity_match _ _ _ Sh Dv) as [Hh Hp].
  split; [|exact Hh].
  now rewrite Hp, perfume_name_of_digits.
Qed.

Lemma bare_numeric_name_witness :
  path_parts_of Sample.rt Sample.bare_id_url
  = inr [""; "perfume"; "SomeHouse"; "590.html"]
  /\ normalize Sample.rt Sample.bare_id_url Sample.musk_item
     = inr Sample.bare_id_out
  /\ dict_get "perfume_name" Sample.bare_id_out = Some (JStr "")
  /\ dict_get "house" Sample.bare_id_out = Some (JStr "SomeHouse").
Proof.
  split; [reflexivity|]. split; [reflexivity|].
  exact (bare_numeric_name Sample.rt Sample.bare_id_url Sample.musk_item
           Sample.bare_id_out
           [""; "perfume"; "SomeHouse"; "590.html"]
           eq_refl eq_refl eq_refl eq_refl).
Defined.

Lemma raw_record_key (item : dict) (k : string) :
  raw_record item ->
  existsb (String.eqb k) schema_fields = false ->
  dict_get k item = None.
Proof.
  unfold raw_record, dict_keys. intros R N.
  induction item as [|[k' v] item IH]; [reflexivity|].
  cbn [map fst forallb] in R. apply andb_true_iff in R.
  destruct R as [Rk R]. cbn [dict_get].
  destruct (String.eqb k k') eqn:E.
  - apply String.eqb_eq in E. subst k'. congruence.
  - now apply IH.
Qed.

(** C9: for a raw record, the output has [house] and [perfume_name]
    either both or neither; when the path does not have the perfume
    shape both are absent and [title] is what it was, whatever [sex]
    and [title] hold. *)
Theorem identity_together (rt : Runtime) (url : string) (item out : dict) :
  raw_record item ->
  normalize rt url item = inr out ->
  dict_in "house" out = dict_in "perfume_name" out
  /\ (forall parts,
         path_parts_of rt url = inr parts ->
         perfume_shape parts = false ->
         dict_in "house" out = false
         /\ dict_in "perfume_name" out = false
         /\ dict_get "title" out = dict_get "title" item).
Proof.
  intros R H.
  destruct (normalize_inv _ _ _ _ H) as (item1 & parts & F & P & D).
  assert (A : perfume_shape parts = false ->
              dict_in "house" out = false
              /\ dict_in "perfume_name" out = false
              /\ dict_get "title" out = dict_get "title" item).
  { intros Sh. rewrite (derive_identity_no_match _ _ Sh) in D.
    injection D as <-. rewrite !dict_in_get, !classify_notes_get.
    change (String.eqb "notes" "house") with false.
    change (String.eqb "notes" "perfume_name") with false.
    change (String.eqb "notes" "title") with false.
    change (existsb (fun f => String.eqb f "house") removed_fields)
      with false.
    change (existsb (fun f => String.eqb f "perfume_name") removed_fields)
      with false.
    change (existsb (fun f => String.eqb f "title") removed_fields)
      with false.
    cbv iota.
    rewrite !(flatten_accords_get _ _ _ F) by reflexivity.
    rewrite !(raw_record_key _ _ R) by reflexivity. auto. }
  split.
  - destruct (perfume_shape parts) eqn:Sh.
    + destruct (derive_identity_match _ _ _ Sh D) as [Hh Hp].
      now rewrite !dict_in_get, Hh, Hp.
    + destruct (A eq_refl) as (-> & -> & _). reflexivity.
  - intros parts' P' Sh. rewrite P in P'. injection P' as <-. now apply A.
Qed.

Lemma identity_together_witness :
  raw_record Sample.zino_item
  /\ path_parts_of Sample.rt Sample.news_url
     = inr [""; "news"; "Zino-590.html"]
  /\ normalize Sample.rt Sample.news_url Sample.zino_item
     = inr Sample.news_out
  /\ dict_in "house" Sample.news_out = false
  /\ dict_in "perfume_name" Sample.news_out = false
  /\ dict_get "title" Sample.news_out
     = Some (JStr "Zino for women and men").
Proof.
  split; [reflexivity|]. split; [reflexivity|]. split; [reflexivity|].
  exact (proj2 (identity_together Sample.rt Sample.news_url
                  Sample.zino_item Sample.news_out eq_refl eq_refl)
           [""; "news"; "Zino-590.html"] eq_refl eq_refl).
Defined.

(* ------------------------------------------------------------------ *)
(** ** The batch (claims C1, C6 and C8) *)

Lemma collect_fold (l : list dict) (results errors : list dict) :
  fold_left collect l (results, errors)
  = (results ++ filter is_result l, errors ++ filter is_error l).
Proof.
  revert results errors.
  induction l as [|r l IH]; intros results errors; cbn [fold_left filter].
  - now rewrite !app_nil_r.
  - unfold collect at 2, is_result, is_error.
    destruct (dict_in "error" r); cbn [negb]; rewrite IH.
    + now rewrite <- app_assoc.
    + now rewrite <- app_assoc.
Qed.

Section Batch.

Variable rt : Runtime.

Lemma scrape_partition (urls : list string) :
  scrape_fragrances rt urls
  = (filter is_result (map (process_url rt) urls),
     filter is_error (map (process_url rt) urls)).
Proof.
  unfold scrape_fragrances. now rewrite collect_fold.
Qed.

Lemma scrape_app (before after : list string) :
  scrape_fragrances rt (before ++ after)
  = (fst (scrape_fragrances rt before) ++ fst (scrape_fragrances rt after),
     snd (scrape_fragrances rt before) ++ snd (scrape_fragrances rt after)).
Proof.
  rewrite !scrape_partition. cbn [fst snd].
  now rewrite map_app, !filter_app.
Qed.

(** A URL whose unit ends in an error dict adds that one entry to
    [errors] and nothing to [results], wherever it stands. *)
Lemma scrape_error_unit (url : string) (before after : list string) :
  is_error (process_url rt url) = true ->
  scrape_fragrances rt (before ++ url :: after)
  = (fst (scrape_fragrances rt before) ++ fst (scrape_fragrances rt after),
     snd (scrape_fragrances rt before)
       ++ process_url rt url :: snd (scrape_fragrances rt after)).
Proof.
  intros E. rewrite scrape_app. f_equal.
  - f_equal. rewrite !scrape_partition. cbn [fst map filter].
    unfold is_result at 1. unfold is_error in E. now rewrite E.
  - f_equal. rewrite !scrape_partition. cbn [snd map filter].
    now rewrite E.
Qed.

Lemma partition_permutation (l : list dict) :
  Permutation (filter is_result l ++ filter is_error l) l.
Proof.
  induction l as [|r l IH]; cbn [filter]; [constructor|].
  unfold is_result at 1, is_error at 1.
  destruct (dict_in "error" r); cbn [negb].
  - apply Permutation_sym, Permutation_cons_app, Permutation_sym, IH.
  - cbn [app]. now constructor.
Qed.

Lemma partition_length (l : list dict) :
  List.length (filter is_result l) + List.length (filter is_error l)
  = List.length l.
Proof.
  induction l as [|r l IH]; cbn [filter]; [reflexivity|].
  unfold is_result at 1, is_error at 1.
  destruct (dict_in "error" r); cbn [negb length]; lia.
Qed.

End Batch.

(** C1, as the code has it: for every input sequence of N URLs,
    [len(results) + len(errors) == N]; [results] followed by [errors]
    is a rearrangement of the per-URL outcomes, one outcome for each
    input position, each in exactly one of the two sequences, and both
    sequences keep the input order. *)
Theorem batch_partition (rt : Runtime) (urls : list string) :
  let outcomes := map (process_url rt) urls in
  let results := fst (scrape_fragrances rt urls) in
  let errors := snd (scrape_fragrances rt urls) in
  List.length results + List.length errors = List.length urls
  /\ Permutation (results ++ errors) outcomes
  /\ results = filter is_result outcomes
  /\ errors = filter is_error outcomes.
Proof.
  cbv zeta. rewrite scrape_partition. cbn [fst snd]. repeat split.
  - rewrite partition_length. apply length_map.
  - apply partition_permutation.
Qed.

(** C1 as stated fails on the set of URLs: a result entry holds no URL
    at all, so an input URL that was scraped with success is referenced
    by no entry of either sequence. *)
Lemma batch_urls_counterexample :
  scrape_fragrances Sample.rt [Sample.zino_url; Sample.down_url]
  = ([Sample.zino_out],
     [error_entry
        ("Failed to crawl " ++ Sample.down_url ++ ": timeout")%string])
  /\ ~ (forall u,
          In u [Sample.zino_url; Sample.down_url] ->
          exists entry,
            In entry
              (fst (scrape_fragrances Sample.rt
                      [Sample.zino_url; Sample.down_url])
               ++ snd (scrape_fragrances Sample.rt
                         [Sample.zino_url; Sample.down_url]))
            /\ references u entry = true).
Proof.
  split; [reflexivity|].
  intros H. destruct (H Sample.zino_url (or_introl eq_refl))
    as (entry & I & R).
  change (In entry
            [Sample.zino_out;
             error_entry
               ("Failed to crawl " ++ Sample.down_url ++ ": timeout")%string])
    in I.
  destruct I as [<-|[<-|[]]]; vm_compute in R; discriminate R.
Qed.

Lemma empty_is_falsy (data : json) :
  py_len data = inr 0 -> truthy data = false.
Proof.
  destruct data as [| | |s|l|d]; cbn; try discriminate.
  - destruct s; [reflexivity | discriminate].
  - destruct l; [reflexivity | discriminate].
  - destruct d; [reflexivity | discriminate].
Qed.

(** C6, as the code has it: for a URL whose extraction decodes to a
    value holding zero items, the unit returns the error entry
    [{"error": "No data extracted from <url>"}], and in any batch that
    URL adds this one entry to [errors] and nothing to [results]. *)
Theorem empty_extraction (rt : Runtime) (url : string) (r : crawl_result)
        (data : json) :
  arun rt url = inr r ->
  success r = true ->
  loads rt (extracted_content r) = inr data ->
  py_len data = inr 0 ->
  let entry := error_entry ("No data extracted from " ++ url)%string in
  process_url rt url = entry
  /\ forall before after,
      scrape_fragrances rt (before ++ url :: after)
      = (fst (scrape_fragrances rt before)
           ++ fst (scrape_fragrances rt after),
         snd (scrape_fragrances rt before)
           ++ entry :: snd (scrape_fragrances rt after)).
Proof.
  intros A S L Z entry.
  assert (P : process_url rt url = entry).
  { unfold process_url, process_url_body. rewrite A. cbn [bind].
    rewrite S. cbn [negb]. rewrite L. unfold no_data.
    rewrite (empty_is_falsy _ Z). reflexivity. }
  split; [exact P|].
  intros before after. rewrite <- P. apply scrape_error_unit.
  now rewrite P.
Qed.

Lemma empty_extraction_witness :
  process_url Sample.rt Sample.empty_url
  = error_entry ("No data extracted from " ++ Sample.empty_url)%string
  /\ scrape_fragrances Sample.rt
       [Sample.zino_url; Sample.empty_url; Sample.swim_url]
     = ([Sample.zino_out; Sample.musk_out],
        [error_entry ("No data extracted from " ++ Sample.empty_url)%string]).
Proof.
  destruct (empty_extraction Sample.rt Sample.empty_url
              {| success := true; error_message := "";
                 extracted_content := Some Sample.empty_url |}
              (JArr []) eq_refl eq_refl eq_refl eq_refl) as [P B].
  split; [exact P|].
  exact (B [Sample.zino_url] [Sample.swim_url]).
Defined.

(** C6 as stated fails on the shape of the entry: it is the one-key
    mapping [{"error": ...}], with neither a [url] nor a [message]
    field, and its text is not [no data extracted]. *)
Lemma empty_extraction_counterexample :
  scrape_fragrances Sample.rt [Sample.empty_url]
  = ([], [error_entry
            ("No data extracted from " ++ Sample.empty_url)%string])
  /\ ~ In (spec_empty_error Sample.empty_url)
          (snd (scrape_fragrances Sample.rt [Sample.empty_url]))
  /\ (forall entry,
         In entry (snd (scrape_fragrances Sample.rt [Sample.empty_url])) ->
         dict_get "url" entry = None /\ dict_get "message" entry = None).
Proof.
  split; [reflexivity|]. split.
  - intros [H|[]]. discriminate H.
  - intros entry [<-|[]]. split; reflexivity.
Qed.

Lemma missing_text_raises (item : dict) (accords : list json) (d : dict) :
  dict_get "accords" item = Some (JArr accords) ->
  In (JObj d) accords ->
  dict_get "text" d = None ->
  exists e, flatten_accords item = inl e.
Proof.
  intros G I T. unfold flatten_accords. rewrite G. cbn [py_iter ret bind].
  destruct (mapM_raises (fun accord => getitem accord "text")
              accords (JObj d) (KeyError "text") I) as [e' E].
  - unfold getitem. now rewrite T.
  - rewrite E. now exists e'.
Qed.

(** C8: whatever exception the processing of a URL raises, [process_url]
    returns the error entry [{"error": "Error processing <url>: <e>"}]
    instead of raising, and in any batch that URL adds this one entry to
    [errors], the other URLs keeping the outcomes they have without it;
    a first record whose [accords] holds a mapping without [text] is
    such a failure. *)
Theorem failure_isolation (rt : Runtime) (url : string) :
  (forall e,
      process_url_body rt url = inl e ->
      let entry :=
        error_entry
          ("Error processing " ++ url ++ ": " ++ exn_str rt e)%string in
      process_url rt url = entry
      /\ forall before after,
          scrape_fragrances rt (before ++ url :: after)
          = (fst (scrape_fragrances rt before)
               ++ fst (scrape_fragrances rt after),
             snd (scrape_fragrances rt before)
               ++ entry :: snd (scrape_fragrances rt after)))
  /\ (forall r item rest accords d,
         arun rt url = inr r ->
         success r = true ->
         loads rt (extracted_content r) = inr (JArr (JObj item :: rest)) ->
         dict_get "accords" item = Some (JArr accords) ->
         In (JObj d) accords ->
         dict_get "text" d = None ->
         exists e, process_url_body rt url = inl e).
Proof.
  split.
  - intros e B entry.
    assert (P : process_url rt url = entry).
    { unfold process_url. now rewrite B. }
    split; [exact P|].
    intros before after. rewrite <- P. apply scrape_error_unit.
    now rewrite P.
  - intros r item rest accords d A S L G I T.
    destruct (missing_text_raises _ _ _ G I T) as [e E].
    exists e. unfold process_url_body. rewrite A. cbn [bind].
    rewrite S. cbn [negb]. rewrite L.
    unfold no_data. cbn [truthy negb py_len bind ret length Nat.eqb getitem0].
    unfold normalize. rewrite E. reflexivity.
Qed.

Lemma failure_isolation_witness :
  process_url_body Sample.rt Sample.broken_url = inl (KeyError "text")
  /\ process_url Sample.rt Sample.broken_url
     = error_entry ("Error processing " ++ Sample.broken_url ++ ": 'text'")
  /\ scrape_fragrances Sample.rt
       [Sample.zino_url; Sample.broken_url; Sample.swim_url]
     = (fst (scrape_fragrances Sample.rt [Sample.zino_url])
          ++ fst (scrape_fragrances Sample.rt [Sample.swim_url]),
        snd (scrape_fragrances Sample.rt [Sample.zino_url])
          ++ error_entry
               ("Error processing " ++ Sample.broken_url ++ ": 'text'")
          :: snd (scrape_fragrances Sample.rt [Sample.swim_url]))
  /\ exists e, process_url_body Sample.rt Sample.broken_url = inl e.
Proof.
  destruct (failure_isolation Sample.rt Sample.broken_url) as [C M].
  destruct (C (KeyError "text") eq_refl) as [P B].
  split; [reflexivity|]. split; [exact P|].
  split; [exact (B [Sample.zino_url] [Sample.swim_url])|].
  exact (M {| success := true; error_message := "";
              extracted_content := Some Sample.broken_url |}
           Sample.broken_item [] 
           [JObj [("text", JStr "Woody")]; JObj []] []
           eq_refl eq_refl eq_refl eq_refl
           (or_intror (or_introl eq_refl)) eq_refl).
Defined.

(* ------------------------------------------------------------------ *)
(** ** Further properties of the normalizer *)

Lemma existsb_eqb_false (k : string) (l : list string) :
  existsb (String.eqb k) l = false ->
  forall f, In f l -> String.eqb f k = false.
Proof.
  induction l as [|a l IH]; cbn [existsb In]; [tauto|].
  intros H f [<-|I].
  - apply orb_false_iff in H. now rewrite String.eqb_sym.
  - apply orb_false_iff in H. now apply IH.
Qed.

Lemma existsb_flip (k : string) (l : list string) :
  existsb (fun f => String.eqb f k) l = existsb (String.eqb k) l.
Proof.
  induction l as [|a l IH]; cbn [existsb]; [reflexivity|].
  now rewrite IH, String.eqb_sym.
Qed.

(** X1: a field the normalizer neither writes nor deletes ([sex],
    [image] and any other key outside [touched_fields]) has in the
    output the value it had in the raw record, or is absent from
    both. *)
Theorem fields_pass_through (rt : Runtime) (url : string) (item out : dict)
        (k : string) :
  normalize rt url item = inr out ->
  existsb (String.eqb k) touched_fields = false ->
  dict_get k out = dict_get k item.
Proof.
  intros H T.
  destruct (normalize_inv _ _ _ _ H) as (item1 & parts & F & _ & _).
  pose proof (existsb_eqb_false _ _ T) as N.
  assert (R : existsb (fun f => String.eqb f k) removed_fields = false).
  { rewrite existsb_flip. unfold touched_fields in T.
    cbn [existsb] in T. do 5 (apply orb_false_iff in T; destruct T as [_ T]).
    exact T. }
  rewrite (normalize_keeps _ _ _ _ _ _ F H); try assumption.
  - apply (flatten_accords_get _ _ _ F). apply N. cbn. tauto.
  - apply N. cbn. tauto.
  - apply N. cbn. tauto.
  - apply N. cbn. tauto.
  - apply N. cbn. tauto.
Qed.

Lemma fields_pass_through_witness :
  normalize Sample.rt Sample.zino_url Sample.zino_item = inr Sample.zino_out
  /\ dict_get "sex" Sample.zino_out = Some (JStr "for women and men")
  /\ dict_get "image" Sample.zino_out = Some (JStr "zino.jpg").
Proof.
  split; [reflexivity|]. split.
  - exact (fields_pass_through Sample.rt Sample.zino_url Sample.zino_item
             Sample.zino_out "sex" eq_refl eq_refl).
  - exact (fields_pass_through Sample.rt Sample.zino_url Sample.zino_item
             Sample.zino_out "image" eq_refl eq_refl).
Defined.

Lemma content_truthy (raw : string) (item : dict) (v : json) :
  content raw item = Some v ->
  dict_get raw item = Some v /\ truthy v = true.
Proof.
  unfold content. destruct (dict_get raw item) as [w|]; [|discriminate].
  destruct (truthy w) eqn:T; [|discriminate].
  intros E. injection E as <-. auto.
Qed.

Lemma notes_entry_some (item : dict) (k : string) (v : json) :
  notes_entry item k = Some v ->
  In k note_categories /\ truthy v = true.
Proof.
  unfold notes_entry, note_categories.
  destruct (String.eqb "unclassified" k) eqn:E1.
  { apply String.eqb_eq in E1. subst k.
    destruct (has_classified_notes item); [discriminate|].
    intros C. apply content_truthy in C. cbn [In]. tauto. }
  destruct (String.eqb "base" k) eqn:E2.
  { apply String.eqb_eq in E2. subst k.
    intros C. apply content_truthy in C. cbn [In]. tauto. }
  destruct (String.eqb "middle" k) eqn:E3.
  { apply String.eqb_eq in E3. subst k.
    intros C. apply content_truthy in C. cbn [In]. tauto. }
  destruct (String.eqb "top" k) eqn:E4; [|discriminate].
  apply String.eqb_eq in E4. subst k.
  intros C. apply content_truthy in C. cbn [In]. tauto.
Qed.

(** X2: every record the normalizer returns has a [notes] mapping; its
    keys are among [top], [middle], [base] and [unclassified], and each
    value it holds is non-empty (an empty category gets no key). *)
Theorem notes_well_formed (rt : Runtime) (url : string) (item out : dict) :
  normalize rt url item = inr out ->
  exists notes,
    dict_get "notes" out = Some (JObj notes)
    /\ forall k v,
        dict_get k notes = Some v ->
        In k note_categories /\ truthy v = true.
Proof.
  intros H. destruct (normalize_notes _ _ _ _ H) as (notes & Hn & Hk).
  exists notes. split; [exact Hn|].
  intros k v G. rewrite Hk in G. now apply notes_entry_some in G.
Qed.

Lemma notes_well_formed_witness :
  normalize Sample.rt Sample.news_url Sample.zino_item = inr Sample.news_out
  /\ exists notes,
      dict_get "notes" Sample.news_out = Some (JObj notes)
      /\ forall k v,
          dict_get k notes = Some v ->
          In k note_categories /\ truthy v = true.
Proof.
  split; [reflexivity|].
  exact (notes_well_formed Sample.rt Sample.news_url Sample.zino_item
           Sample.news_out eq_refl).
Defined.

(** X3: when none of the three [has_*] flags is true and
    [unclassified_notes] is present and non-empty, the output [notes]
    holds that value, unchanged, under [unclassified]. *)
Theorem unclassified_kept (rt : Runtime) (url : string) (item out : dict)
        (v : json) :
  normalize rt url item = inr out ->
  has_classified_notes item = false ->
  dict_get "unclassified_notes" item = Some v ->
  truthy v = true ->
  exists notes,
    dict_get "notes" out = Some (JObj notes)
    /\ dict_get "unclassified" notes = Some v.
Proof.
  intros H C G T. destruct (normalize_notes _ _ _ _ H) as (notes & Hn & Hk).
  exists notes. split; [exact Hn|].
  rewrite Hk. unfold notes_entry.
  change (String.eqb "unclassified" "unclassified") with true. cbv iota.
  rewrite C. unfold content. now rewrite G, T.
Qed.

Lemma unclassified_kept_witness :
  normalize Sample.rt Sample.swim_url Sample.musk_item = inr Sample.musk_out
  /\ exists notes,
      dict_get "notes" Sample.musk_out = Some (JObj notes)
      /\ dict_get "unclassified" notes = Some (JArr [Sample.musk]).
Proof.
  split; [reflexivity|].
  exact (unclassified_kept Sample.rt Sample.swim_url Sample.musk_item
           Sample.musk_out (JArr [Sample.musk])
           eq_refl eq_refl eq_refl eq_refl).
Defined.

(** X4: a record the normalizer returns is filed under [errors] by the
    batch loop exactly when the raw record itself had a field named
    [error]; a raw record with schema fields only is always filed
    under [results]. *)
Theorem normalized_record_filing (rt : Runtime) (url : string)
        (item out : dict) :
  normalize rt url item = inr out ->
  is_error out = dict_in "error" item
  /\ (raw_record item -> is_error out = false).
Proof.
  intros H.
  assert (E : is_error out = dict_in "error" item).
  { destruct (normalize_inv _ _ _ _ H) as (item1 & parts & F & _ & _).
    unfold is_error. rewrite !dict_in_get.
    rewrite (normalize_keeps _ _ _ _ _ "error" F H) by reflexivity.
    now rewrite (flatten_accords_get _ _ "error" F). }
  split; [exact E|].
  intros R. rewrite E. apply dict_in_false_get.
  now apply raw_record_key.
Qed.

Lemma normalized_record_filing_witness :
  normalize Sample.rt Sample.zino_url Sample.zino_item = inr Sample.zino_out
  /\ raw_record Sample.zino_item
  /\ is_error Sample.zino_out = false.
Proof.
  split; [reflexivity|]. split; [reflexivity|].
  exact (proj2 (normalized_record_filing Sample.rt Sample.zino_url
                  Sample.zino_item Sample.zino_out eq_refl)
           eq_refl).
Defined.

(** *** Keys stay distinct *)

Lemma dict_in_keys (k : string) (d : dict) :
  dict_in k d = true <-> In k (dict_keys d).
Proof.
  unfold dict_keys. induction d as [|[k' v] d IH]; cbn [dict_in map fst In].
  - split; [discriminate | tauto].
  - rewrite orb_true_iff, IH, String.eqb_eq. intuition congruence.
Qed.

Lemma dict_keys_set (k : string) (v : json) (d : dict) :
  dict_keys (dict_set k v d)
  = if dict_in k d then dict_keys d else dict_keys d ++ [k].
Proof.
  unfold dict_keys. induction d as [|[k' v'] d IH]; cbn [dict_set dict_in].
  - reflexivity.
  - destruct (String.eqb k k') eqn:E; cbn [orb map fst].
    + apply String.eqb_eq in E. now subst.
    + rewrite IH. now destruct (dict_in k d).
Qed.

Lemma NoDup_dict_set (k : string) (v : json) (d : dict) :
  NoDup (dict_keys d) -> NoDup (dict_keys (dict_set k v d)).
Proof.
  intros N. rewrite dict_keys_set.
  destruct (dict_in k d) eqn:I; [exact N|].
  apply NoDup_rev in N. rewrite <- (rev_involutive (_ ++ _)).
  apply NoDup_rev. rewrite rev_app_distr. cbn [rev app].
  constructor; [|exact N].
  rewrite <- in_rev. intros C. apply dict_in_keys in C. congruence.
Qed.

Lemma NoDup_dict_del (k : string) (d : dict) :
  NoDup (dict_keys d) -> NoDup (dict_keys (dict_del k d)).
Proof.
  unfold dict_keys, dict_del.
  induction d as [|[k' v] d IH]; cbn [map filter fst]; [auto|].
  intros N. inversion N as [|? ? Hn Hd]; subst.
  destruct (negb (String.eqb k k')); cbn [map fst]; [|auto].
  constructor; [|auto].
  intros C. apply Hn. apply in_map_iff in C.
  destruct C as (kv & E & I). apply filter_In in I.
  apply in_map_iff. exists kv. tauto.
Qed.

Lemma NoDup_drop_key (k : string) (d : dict) :
  NoDup (dict_keys d) -> NoDup (dict_keys (drop_key k d)).
Proof.
  unfold drop_key. destruct (dict_in k d); [apply NoDup_dict_del | auto].
Qed.

Lemma move_notes_distinct (raw cat : string) (st : dict * dict) :
  distinct_pair st -> distinct_pair (move_notes raw cat st).
Proof.
  destruct st as [item notes]. unfold distinct_pair, move_notes.
  cbn [fst snd]. intros [Ni Nn].
  destruct (dict_get raw item) as [v|]; cbn [fst snd]; [|auto].
  split; [now apply NoDup_dict_del|].
  destruct (truthy v); [now apply NoDup_dict_set | exact Nn].
Qed.

Lemma move_unclassified_distinct (c : bool) (st : dict * dict) :
  distinct_pair st -> distinct_pair (move_unclassified c st).
Proof.
  destruct st as [item notes]. unfold distinct_pair, move_unclassified.
  cbn [fst snd]. intros [Ni Nn].
  destruct (dict_get "unclassified_notes" item) as [v|]; cbn [fst snd];
    [|auto].
  split; [now apply NoDup_dict_del|].
  destruct (negb c && truthy v); [now apply NoDup_dict_set | exact Nn].
Qed.

Lemma notes_state_distinct (item : dict) :
  NoDup (dict_keys item) -> distinct_pair (notes_state item).
Proof.
  intros N. unfold notes_state.
  assert (D : distinct_pair
                (move_unclassified (has_classified_notes item)
                   (move_notes "base_notes" "base"
                      (move_notes "middle_notes" "middle"
                         (move_notes "top_notes" "top" (item, [])))))).
  { apply move_unclassified_distinct. do 3 apply move_notes_distinct.
    split; [exact N | constructor]. }
  destruct (move_unclassified _ _) as [i n]. destruct D as [Di Dn].
  split; cbn [fst snd] in *; [|exact Dn].
  now do 3 apply NoDup_drop_key.
Qed.

Lemma flatten_accords_distinct (item item1 : dict) :
  flatten_accords item = inr item1 ->
  NoDup (dict_keys item) -> NoDup (dict_keys item1).
Proof.
  unfold flatten_accords. intros H N.
  destruct (dict_get "accords" item) as [v|].
  - apply bind_inr in H. destruct H as [accords [_ H]].
    apply bind_inr in H. destruct H as [texts [_ H]].
    injection H as <-. now apply NoDup_dict_set.
  - now injection H as <-.
Qed.

Lemma clean_title_distinct (item out : dict) :
  clean_title item = inr out ->
  NoDup (dict_keys item) -> NoDup (dict_keys out).
Proof.
  unfold clean_title. intros H N.
  destruct (dict_get "sex" item) as [sex|]; [|now injection H as <-].
  destruct (truthy sex); [|now injection H as <-].
  destruct (dict_get "title" item) as [title|]; [|now injection H as <-].
  apply bind_inr in H. destruct H as [cleaned [_ H]].
  injection H as <-. now apply NoDup_dict_set.
Qed.

(** X5: the normalizer keeps keys distinct: from a raw record without a
    repeated key it returns a record without a repeated key, and the
    [notes] mapping it builds never has one. *)
Theorem keys_stay_distinct (rt : Runtime) (url : string) (item out : dict) :
  NoDup (dict_keys item) ->
  normalize rt url item = inr out ->
  NoDup (dict_keys out)
  /\ exists notes,
      dict_get "notes" out = Some (JObj notes) /\ NoDup (dict_keys notes).
Proof.
  intros N H.
  destruct (normalize_inv _ _ _ _ H) as (item1 & parts & F & _ & D).
  pose proof (flatten_accords_distinct _ _ F N) as N1.
  destruct (notes_state_distinct _ N1) as [Ni Nn].
  assert (Nc : NoDup (dict_keys (classify_notes item1))).
  { unfold classify_notes. destruct (notes_state item1) as [i n].
    now apply NoDup_dict_set. }
  split.
  - unfold derive_identity in D. destruct (perfume_shape parts).
    + apply (clean_title_distinct _ _ D).
      now do 2 apply NoDup_dict_set.
    + now injection D as <-.
  - exists (snd (notes_state item1)). split; [|exact Nn].
    rewrite (derive_identity_get _ _ _ _ D) by reflexivity.
    now rewrite classify_notes_get.
Qed.

Lemma keys_stay_distinct_witness :
  NoDup (dict_keys Sample.zino_item)
  /\ normalize Sample.rt Sample.zino_url Sample.zino_item
     = inr Sample.zino_out
  /\ NoDup (dict_keys Sample.zino_out).
Proof.
  assert (N : NoDup (dict_keys Sample.zino_item)).
  { repeat (constructor;
            [cbn; intros C;
             repeat (destruct C as [C|C]; [discriminate C|]); exact C|]).
    constructor. }
  split; [exact N|]. split; [reflexivity|].
  exact (proj1 (keys_stay_distinct Sample.rt Sample.zino_url
                  Sample.zino_item Sample.zino_out N eq_refl)).
Defined.

(** X6: the normalizer does not accept its own output: once a record
    with at least one accord has been normalized, its [accords] holds
    plain strings, and normalizing it again raises [TypeError]. *)
Theorem renormalize_raises (rt : Runtime) (url url' : string)
        (item out : dict) (accord : json) (accords : list json)
        (texts : list string) :
  normalize rt url item = inr out ->
  dict_get "accords" item = Some (JArr (accord :: accords)) ->
  Forall2 accord_with_text (accord :: accords) texts ->
  normalize rt url' out = inl TypeError.
Proof.
  intros H G F.
  pose proof (flatten_accords_texts _ _ _ G F) as E.
  assert (A : dict_get "accords" out = Some (JArr (map JStr texts))).
  { rewrite (normalize_keeps _ _ _ _ _ _ E H) by reflexivity.
    apply dict_get_set_eq. }
  inversion F as [|? t ? ts _ _]; subst.
  unfold normalize, flatten_accords. rewrite A. reflexivity.
Qed.

Lemma renormalize_raises_witness :
  normalize Sample.rt Sample.zino_url Sample.zino_item = inr Sample.zino_out
  /\ normalize Sample.rt Sample.zino_url Sample.zino_out = inl TypeError.
Proof.
  split; [reflexivity|].
  apply (renormalize_raises Sample.rt Sample.zino_url Sample.zino_url
           Sample.zino_item Sample.zino_out
           (JObj [("text", JStr "Woody")]) [JObj [("text", JStr "Spicy")]]
           ["Woody"; "Spicy"] eq_refl eq_refl).
  repeat constructor; eexists; split; reflexivity.
Defined.

(** *** The shape of [house] and [perfume_name] *)

Lemma lacks_app (c : ascii) (a b : string) :
  lacks c (a ++ b)%string = lacks c a && lacks c b.
Proof.
  induction a as [|x a IH]; cbn [append lacks]; [reflexivity|].
  now rewrite IH, andb_assoc.
Qed.

Lemma lacks_dashes_to_spaces (s : string) :
  lacks "-" (dashes_to_spaces s) = true.
Proof.
  induction s as [|c s IH]; cbn [dashes_to_spaces lacks]; [reflexivity|].
  rewrite IH, andb_true_r.
  destruct (Ascii.eqb "-" c) eqn:E; [reflexivity | now rewrite E].
Qed.

Lemma split_scan_nonempty (sep cur s : string) (skip : nat) :
  exists x xs, PyStr.split_scan sep skip cur s = x :: xs.
Proof.
  revert skip cur. induction s as [|c s IH]; intros skip cur;
    cbn [PyStr.split_scan]; [now eexists; eexists|].
  destruct skip; [|apply IH].
  destruct (PyStr.startswith sep (String c s)); [now eexists; eexists|].
  apply IH.
Qed.

Lemma join_cons (sep p : string) (rest : list string) :
  rest <> [] ->
  PyStr.join sep (p :: rest) = (p ++ sep ++ PyStr.join sep rest)%string.
Proof. destruct rest; [congruence | reflexivity]. Qed.

(** [' '.join(s.split('-'))] is [s.replace('-', ' ')]. *)
Lemma join_split_dash (s cur : string) :
  PyStr.join " " (PyStr.split_scan "-" 0 cur s)
  = (cur ++ dashes_to_spaces s)%string.
Proof.
  revert cur. induction s as [|c s IH]; intros cur.
  - cbn [PyStr.split_scan PyStr.join dashes_to_spaces].
    now rewrite append_nil_r.
  - cbn [PyStr.split_scan PyStr.startswith dashes_to_spaces].
    rewrite andb_true_r. change (String.length "-" - 1) with 0.
    destruct (Ascii.eqb "-" c) eqn:E.
    + destruct (split_scan_nonempty "-" EmptyString s 0) as (x & xs & X).
      rewrite join_cons by (rewrite X; discriminate).
      now rewrite IH.
    + rewrite IH. apply append_snoc.
Qed.

Lemma split_pieces_lack_dash (s cur : string) :
  lacks "-" cur = true ->
  Forall (fun p => lacks "-" p = true) (PyStr.split_scan "-" 0 cur s).
Proof.
  revert cur. induction s as [|c s IH]; intros cur L.
  - cbn [PyStr.split_scan]. now constructor.
  - cbn [PyStr.split_scan PyStr.startswith].
    rewrite andb_true_r. change (String.length "-" - 1) with 0.
    destruct (Ascii.eqb "-" c) eqn:E.
    + constructor; [exact L | now apply IH].
    + apply IH. rewrite lacks_app, L. cbn [lacks]. now rewrite E.
Qed.

Lemma Forall_removelast {A} (P : A -> Prop) (l : list A) :
  Forall P l -> Forall P (removelast l).
Proof.
  induction 1 as [|a l Pa Pl IH]; cbn [removelast]; [constructor|].
  destruct l; [constructor | now constructor].
Qed.

Lemma lacks_join (l : list string) :
  Forall (fun p => lacks "-" p = true) l ->
  lacks "-" (PyStr.join " " l) = true.
Proof.
  induction 1 as [|p l Pp Pl IH]; [reflexivity|].
  destruct l as [|q l]; [exact Pp|].
  rewrite join_cons by discriminate.
  now rewrite !lacks_app, Pp, IH.
Qed.

Lemma perfume_name_lacks_dash (part : string) :
  lacks "-" (perfume_name_of part) = true.
Proof.
  unfold perfume_name_of. apply lacks_join.
  destruct (PyStr.isdigit _).
  - apply Forall_removelast. now apply split_pieces_lack_dash.
  - now apply split_pieces_lack_dash.
Qed.

(** X7: when the path has the perfume shape, the [house] and
    [perfume_name] the normalizer sets are strings without any ['-']. *)
Theorem identity_without_dashes (rt : Runtime) (url : string)
        (item out : dict) (parts : list string) :
  path_parts_of rt url = inr parts ->
  perfume_shape parts = true ->
  normalize rt url item = inr out ->
  exists house name,
    dict_get "house" out = Some (JStr house)
    /\ dict_get "perfume_name" out = Some (JStr name)
    /\ lacks "-" house = true
    /\ lacks "-" name = true.
Proof.
  intros P Sh H.
  destruct (normalize_inv _ _ _ _ H) as (item1 & parts' & _ & P' & D).
  rewrite P in P'. injection P' as <-.
  destruct (derive_identity_match _ _ _ Sh D) as [Hh Hp].
  eexists. eexists. split; [exact Hh|]. split; [exact Hp|]. split.
  - rewrite replace_dash_chars. apply lacks_dashes_to_spaces.
  - apply perfume_name_lacks_dash.
Qed.

Lemma identity_without_dashes_witness :
  normalize Sample.rt Sample.swim_url Sample.musk_item = inr Sample.musk_out
  /\ exists house name,
      dict_get "house" Sample.musk_out = Some (JStr house)
      /\ dict_get "perfume_name" Sample.musk_out = Some (JStr name)
      /\ lacks "-" house = true
      /\ lacks "-" name = true.
Proof.
  split; [reflexivity|].
  exact (identity_without_dashes Sample.rt Sample.swim_url Sample.musk_item
           Sample.musk_out
           [""; "perfume"; "Louis-Vuitton"; "Afternoon-Swim-53947.html"]
           eq_refl eq_refl eq_refl).
Defined.

(** X8: when the last ['-']-separated token of part 3 (cut at the first
    [.html]) is not all digits, nothing is dropped: the perfume name is
    that text with every ['-'] turned into a space. *)
Theorem name_without_id (part : string) :
  PyStr.isdigit
    (last (PyStr.split "-" (before_first ".html" part)) EmptyString) = false ->
  perfume_name_of part = dashes_to_spaces (before_first ".html" part).
Proof.
  intros D. unfold perfume_name_of.
  rewrite split_head_before_first, D.
  unfold PyStr.split. now rewrite join_split_dash.
Qed.

Lemma name_without_id_witness :
  perfume_name_of "Eau-de-Cologne-4711a.html" = "Eau de Cologne 4711a".
Proof.
  exact (name_without_id "Eau-de-Cologne-4711a.html" eq_refl).
Defined.

Lemma digit_not_dot (c : ascii) :
  PyStr.isdigit_char c = true -> Ascii.eqb "." c = false.
Proof.
  intros D. destruct (Ascii.eqb "." c) eqn:E; [|reflexivity].
  apply Ascii.eqb_eq in E. subst c. discriminate D.
Qed.

Lemma startswith_boundary (sub q r : string) (x : ascii) :
  lacks x sub = true ->
  PyStr.startswith sub (q ++ String x r)%string = PyStr.startswith sub q.
Proof.
  revert q. induction sub as [|a sub IH]; intros q L; [reflexivity|].
  cbn [lacks] in L. apply andb_true_iff in L. destruct L as [La Ls].
  destruct q as [|b q]; cbn [append PyStr.startswith].
  - rewrite Ascii.eqb_sym. apply negb_true_iff in La. now rewrite La.
  - now rewrite IH.
Qed.

Lemma before_first_boundary (sub p r : string) (x : ascii) :
  contains sub p = false ->
  lacks x sub = true ->
  before_first sub (p ++ String x r)%string
  = (p ++ before_first sub (String x r))%string.
Proof.
  intros C L. induction p as [|c p IH]; [reflexivity|].
  cbn [contains] in C. apply orb_false_iff in C. destruct C as [Cs Cp].
  change (String c p ++ String x r)%string
    with (String c (p ++ String x r)%string).
  cbn [before_first].
  change (String c (p ++ String x r)%string)
    with (String c p ++ String x r)%string at 1.
  rewrite startswith_boundary, Cs by exact L.
  cbn [append]. now rewrite IH.
Qed.

Lemma before_first_digits (d tail : string) :
  PyStr.all_digits d = true ->
  before_first ".html" (d ++ ".html" ++ tail)%string = d.
Proof.
  induction d as [|c d IH]; intros D.
  - reflexivity.
  - cbn [PyStr.all_digits] in D. apply andb_true_iff in D.
    destruct D as [Dc Dd].
    cbn [append before_first PyStr.startswith].
    rewrite (digit_not_dot _ Dc). cbn [andb].
    f_equal. now apply IH.
Qed.

Lemma split_scan_dash_app (p d cur : string) :
  PyStr.split_scan "-" 0 cur (p ++ String "-" d)%string
  = PyStr.split_scan "-" 0 cur p ++ PyStr.split_scan "-" 0 EmptyString d.
Proof.
  revert cur. induction p as [|c p IH]; intros cur.
  - reflexivity.
  - cbn [append PyStr.split_scan PyStr.startswith].
    rewrite !andb_true_r. change (String.length "-" - 1) with 0.
    destruct (Ascii.eqb "-" c); [|apply IH].
    cbn [app]. now rewrite IH.
Qed.

(** X9: for a part 3 of the usual form, words joined by ['-'], then
    ['-'] and an all-digit id, then [.html] and whatever follows, the
    perfume name is the words with every ['-'] turned into a space; the
    id is dropped, and only the id, even if the word before it is a
    number too. *)
Theorem name_with_id (words id tail : string) :
  contains ".html" words = false ->
  PyStr.isdigit id = true ->
  perfume_name_of (words ++ "-" ++ id ++ ".html" ++ tail)%string
  = dashes_to_spaces words.
Proof.
  intros C D.
  assert (A : PyStr.all_digits id = true).
  { destruct id; [discriminate | exact D]. }
  unfold perfume_name_of. rewrite split_head_before_first.
  change (words ++ "-" ++ id ++ ".html" ++ tail)%string
    with (words ++ String "-" (id ++ ".html" ++ tail))%string.
  rewrite before_first_boundary by (exact C || reflexivity).
  change (before_first ".html" (String "-" (id ++ ".html" ++ tail)))
    with (String "-" (before_first ".html" (id ++ ".html" ++ tail))).
  rewrite before_first_digits by exact A.
  unfold PyStr.split. rewrite split_scan_dash_app.
  rewrite (split_dash_digits id EmptyString A). cbn [append].
  rewrite last_last, D, removelast_last.
  now rewrite join_split_dash.
Qed.

Lemma name_with_id_witness :
  perfume_name_of "Chanel-No-5-12345.html?ref=1" = "Chanel No 5".
Proof.
  exact (name_with_id "Chanel-No-5" "12345" "?ref=1" eq_refl eq_refl).
Defined.

(** *** When the title is left alone *)

Lemma replace_absent (s t : string) :
  contains s t = false -> PyStr.replace s EmptyString t = t.
Proof.
  destruct s as [|a s].
  - destruct t; discriminate.
  - unfold PyStr.replace. induction t as [|c t IH]; [reflexivity|].
    cbn [contains]. intros C. apply orb_false_iff in C.
    destruct C as [Cs Ct].
    cbn [PyStr.replace_scan]. rewrite Cs. f_equal. now apply IH.
Qed.

Lemma clean_title_kept (item out : dict) :
  title_kept item ->
  clean_title item = inr out ->
  dict_get "title" out = dict_get "title" item.
Proof.
  unfold clean_title.
  intros [S|[T|[(sex & S & F)|(s & t & S & T & C)]]] H.
  - rewrite S in H. now injection H as <-.
  - destruct (dict_get "sex" item) as [sex|]; [|now injection H as <-].
    destruct (truthy sex); [|now injection H as <-].
    rewrite T in H. now injection H as <-.
  - rewrite S, F in H. now injection H as <-.
  - rewrite S in H. destruct (truthy (JStr s)); [|now injection H as <-].
    rewrite T in H. cbn [str_replace_method bind ret] in H.
    injection H as <-. rewrite dict_get_set_eq, T.
    now rewrite replace_absent.
Qed.

(** X10: the title cleanup changes nothing when [sex] or [title] is
    absent, when [sex] is empty, or when both are strings and [sex]
    does not occur in [title]: the output [title] is the raw one,
    whatever the URL. *)
Theorem title_left_alone (rt : Runtime) (url : string) (item out : dict) :
  title_kept item ->
  normalize rt url item = inr out ->
  dict_get "title" out = dict_get "title" item.
Proof.
  intros K H.
  destruct (normalize_inv _ _ _ _ H) as (item1 & parts & F & _ & D).
  assert (B : forall f, In f ["sex"; "title"] ->
                        dict_get f (classify_notes item1) = dict_get f item).
  { intros f [<-|[<-|[]]]; rewrite classify_notes_get.
    - change (String.eqb "notes" "sex") with false.
      change (existsb (fun f => String.eqb f "sex") removed_fields)
        with false.
      cbv iota. now apply (flatten_accords_get _ _ _ F).
    - change (String.eqb "notes" "title") with false.
      change (existsb (fun f => String.eqb f "title") removed_fields)
        with false.
      cbv iota. now apply (flatten_accords_get _ _ _ F). }
  unfold derive_identity in D. destruct (perfume_shape parts).
  - set (item3 := dict_set "perfume_name" _ _) in D.
    assert (B3 : forall f, In f ["sex"; "title"] ->
                           dict_get f item3 = dict_get f item).
    { intros f I. unfold item3. rewrite <- (B f I).
      destruct I as [<-|[<-|[]]];
        now rewrite !dict_get_set_neq by reflexivity. }
    rewrite (clean_title_kept item3 out); [apply B3; cbn; tauto| |exact D].
    unfold title_kept. rewrite !B3 by (cbn; tauto). exact K.
  - injection D as <-. apply B. cbn; tauto.
Qed.

Lemma title_left_alone_witness :
  title_kept Sample.mixed_item
  /\ normalize Sample.rt Sample.odd_url Sample.mixed_item
     = inr Sample.odd_out
  /\ dict_get "title" Sample.odd_out = Some (JStr "Zino").
Proof.
  assert (K : title_kept Sample.mixed_item) by (left; reflexivity).
  split; [exact K|]. split; [reflexivity|].
  exact (title_left_alone Sample.rt Sample.odd_url Sample.mixed_item
           Sample.odd_out K eq_refl).
Defined.

(* ------------------------------------------------------------------ *)
(** ** Further properties of [process_url] and of the batch *)

(** X11: whatever the crawler and the decoder give, [process_url]
    returns either a one-key error entry carrying one of its four
    messages, or the normalized first element of a decoded non-empty
    list whose first element is a dict; the other elements of the list
    play no part. *)
Theorem process_url_outcomes (rt : Runtime) (url : string) :
  (exists msg,
      process_url rt url = error_entry msg /\ unit_error_message url msg)
  \/ (exists r item rest,
         arun rt url = inr r
         /\ success r = true
         /\ loads rt (extracted_content r) = inr (JArr (JObj item :: rest))
         /\ normalize rt url item = inr (process_url rt url)).
Proof.
  unfold process_url, process_url_body, unit_error_message.
  destruct (arun rt url) as [e|r]; cbn [bind].
  { left. eexists. split; [reflexivity|]. do 3 right. now eexists. }
  destruct (success r) eqn:S; cbn [negb].
  2:{ left. eexists. split; [reflexivity|]. left. now eexists. }
  destruct (loads rt (extracted_content r)) as [e|data] eqn:L.
  { destruct (is_JSONDecodeError e).
    - left. eexists. split; [reflexivity|]. right. left. now eexists.
    - left. eexists. split; [reflexivity|]. do 3 right. now eexists. }
  assert (Err : forall e : exn,
             exists msg,
               error_entry
                 ("Error processing " ++ url ++ ": " ++ exn_str rt e)%string
               = error_entry msg
               /\ ((exists m, msg = ("Failed to crawl " ++ url ++ ": " ++ m)%string)
                   \/ (exists m, msg = ("Failed to parse JSON from "
                                          ++ url ++ ": " ++ m)%string)
                   \/ msg = ("No data extracted from " ++ url)%string
                   \/ (exists m, msg = ("Error processing "
                                          ++ url ++ ": " ++ m)%string))).
  { intros e. eexists. split; [reflexivity|]. do 3 right. now eexists. }
  assert (Emp : exists msg,
             error_entry ("No data extracted from " ++ url)%string
             = error_entry msg
             /\ ((exists m, msg = ("Failed to crawl " ++ url ++ ": " ++ m)%string)
                 \/ (exists m, msg = ("Failed to parse JSON from "
                                        ++ url ++ ": " ++ m)%string)
                 \/ msg = ("No data extracted from " ++ url)%string
                 \/ (exists m, msg = ("Error processing "
                                        ++ url ++ ": " ++ m)%string))).
  { eexists. split; [reflexivity|]. right. right. now left. }
  unfold no_data.
  destruct data as [|b|n|s|l|d]; cbn [truthy negb].
  - left. exact Emp.
  - destruct b; cbn [negb py_len bind raise]; left; [apply Err | exact Emp].
  - destruct (Z.eqb n 0); cbn [negb py_len bind raise]; left;
      [exact Emp | apply Err].
  - destruct s as [|c s]; [left; exact Emp|].
    left. change (exists msg,
      error_entry ("Error processing " ++ url ++ ": "
                     ++ exn_str rt TypeError)%string = error_entry msg
      /\ ((exists m, msg = ("Failed to crawl " ++ url ++ ": " ++ m)%string)
          \/ (exists m, msg = ("Failed to parse JSON from "
                                 ++ url ++ ": " ++ m)%string)
          \/ msg = ("No data extracted from " ++ url)%string
          \/ (exists m, msg = ("Error processing "
                                 ++ url ++ ": " ++ m)%string))).
    apply Err.
  - destruct l as [|x l]; [left; exact Emp|].
    cbn [py_len bind ret length Nat.eqb getitem0].
    destruct x as [| | | | |item]; try (left; apply Err).
    destruct (normalize rt url item) as [e|out] eqn:N; [left; apply Err|].
    right. exists r, item, l. auto.
  - destruct d as [|kv d]; [left; exact Emp|].
    left. apply Err.
Qed.

(** X12: the batch of a concatenation is the concatenation of the
    batches, for [results] and for [errors]: what a URL contributes
    does not depend on the URLs around it, and the empty batch gives
    two empty sequences. *)
Theorem batch_of_concatenation (rt : Runtime) (before after : list string) :
  scrape_fragrances rt [] = ([], [])
  /\ scrape_fragrances rt (before ++ after)
     = (fst (scrape_fragrances rt before) ++ fst (scrape_fragrances rt after),
        snd (scrape_fragrances rt before)
          ++ snd (scrape_fragrances rt after)).
Proof.
  split; [reflexivity | apply scrape_app].
Qed.

(* ------------------------------------------------------------------ *)
(** ** The command-line extractor against [process_url] *)

Lemma error_entry_no_notes (msg : string) :
  dict_in "notes" (error_entry msg) = false.
Proof. reflexivity. Qed.

Lemma normalize_has_notes (rt : Runtime) (url : string) (item out : dict) :
  normalize rt url item = inr out -> dict_in "notes" out = true.
Proof.
  intros H. destruct (normalize_notes _ _ _ _ H) as (notes & Hn & _).
  now rewrite dict_in_get, Hn.
Qed.

Section CliFacts.

Variable rt : Runtime.
Variable open_w : string -> exc unit.

(** Both entry points on a first element that is a dict. *)
Lemma cli_on_record (url : string) (output_file : option string)
      (r : crawl_result) (item : dict) (rest : list json) :
  arun rt url = inr r ->
  success r = true ->
  loads rt (extracted_content r) = inr (JArr (JObj item :: rest)) ->
  extract_fragrance_data rt open_w url output_file
  = (out <- normalize rt url item ;;
     file <- save_item open_w output_file out ;;
     ret {| result_data := Some out; written := file |})
  /\ process_url_body rt url = normalize rt url item.
Proof.
  intros A S L. unfold extract_fragrance_data, process_url_body.
  rewrite A. cbn [bind]. rewrite S, L. cbn [negb bind]. split; reflexivity.
Qed.

(** X13: called without an output file, [extract_fragrance_data]
    returns a record exactly when the body of [process_url] returns
    that same record as a result (a dict with a [notes] key, which no
    error entry has): the two copies of the normalizer agree. *)
Theorem cli_agrees_with_api (url : string) (item : dict) :
  extract_fragrance_data rt open_w url None
  = inr {| result_data := Some item; written := None |}
  <-> (process_url_body rt url = inr item /\ dict_in "notes" item = true).
Proof.
  unfold extract_fragrance_data, process_url_body.
  destruct (arun rt url) as [e|r]; cbn [bind].
  { split; [discriminate | intros [H _]; discriminate]. }
  destruct (success r); cbn [negb].
  2:{ split; [discriminate|].
      intros [H N]. injection H as <-. discriminate N. }
  destruct (loads rt (extracted_content r)) as [e|data]; cbn [bind].
  { destruct (is_JSONDecodeError e).
    - split; [discriminate|].
      intros [H N]. injection H as <-. discriminate N.
    - split; [discriminate | intros [H _]; discriminate]. }
  unfold has_data, no_data.
  assert (Emp : forall o : cli_outcome,
             result_data o = None ->
             (@inr exn _ o
              = inr {| result_data := Some item; written := None |}
              <-> (@inr exn dict
                     (error_entry ("No data extracted from " ++ url)%string)
                   = inr item /\ dict_in "notes" item = true))).
  { intros o O. split.
    - intros H. injection H as ->. discriminate O.
    - intros [H N]. injection H as <-. discriminate N. }
  destruct data as [|b|n|s|l|d]; cbn [truthy negb].
  - now apply Emp.
  - destruct b; cbn [negb py_len bind raise]; [|now apply Emp].
    split; [discriminate | intros [H _]; discriminate].
  - destruct (Z.eqb n 0); cbn [negb py_len bind raise]; [now apply Emp|].
    split; [discriminate | intros [H _]; discriminate].
  - destruct s as [|c s]; [now apply Emp|].
    split; [discriminate | intros [H _]; discriminate].
  - destruct l as [|x l]; [now apply Emp|].
    cbn [py_len bind ret length Nat.eqb Nat.ltb Nat.leb getitem0].
    destruct x as [| | | | |d];
      try (split; [discriminate | intros [H _]; discriminate]).
    destruct (normalize rt url d) as [e|out] eqn:N; cbn [bind save_item ret].
    + split; [discriminate | intros [H _]; discriminate].
    + split.
      * intros H. injection H as <-. split; [reflexivity|].
        now apply (normalize_has_notes rt url d).
      * intros [H _]. now injection H as <-.
  - destruct d as [|kv d]; [now apply Emp|].
    split; [discriminate | intros [H _]; discriminate].
Qed.

(** X14: [extract_fragrance_data] catches nothing: every exception the
    body of [process_url] raises (reported there as [Error processing])
    and every decoding error (reported there as [Failed to parse JSON])
    leaves [extract_fragrance_data] as that same exception, with or
    without an output file. *)
Theorem cli_raises_what_api_reports (url : string)
        (output_file : option string) (e : exn) :
  process_url_body rt url = inl e
  \/ (exists r, arun rt url = inr r /\ success r = true
                /\ loads rt (extracted_content r) = inl e) ->
  extract_fragrance_data rt open_w url output_file = inl e.
Proof.
  unfold extract_fragrance_data, process_url_body.
  intros [H|(r & A & S & L)].
  2:{ rewrite A. cbn [bind]. now rewrite S, L. }
  destruct (arun rt url) as [e0|r]; cbn [bind] in *; [congruence|].
  destruct (success r); cbn [negb] in H; [|discriminate H].
  destruct (loads rt (extracted_content r)) as [e0|data]; cbn [bind].
  { destruct (is_JSONDecodeError e0); [discriminate H|].
    unfold raise in H. congruence. }
  unfold has_data. unfold no_data in H. unfold raise in *.
  destruct data as [|b|n|s|l|d]; cbn [truthy negb] in *;
    try discriminate H.
  - destruct b; cbn [negb py_len bind raise] in *;
      [unfold raise in *; congruence | discriminate H].
  - destruct (Z.eqb n 0); cbn [negb py_len bind raise] in *;
      [discriminate H | unfold raise in *; congruence].
  - destruct s as [|c s]; [discriminate H|].
    cbn in H. cbn. congruence.
  - destruct l as [|x l]; [discriminate H|].
    cbn -[normalize] in H. cbn -[normalize].
    destruct x as [| | | | |d]; try congruence.
    now rewrite H.
  - destruct d as [|kv d]; [discriminate H|].
    cbn in H. cbn. congruence.
Qed.

(** X15: a failed crawl and an empty extraction make
    [extract_fragrance_data] return [None] and write nothing; a record
    it returns is the normalized first element of the decoded list; it
    writes a file only when it has a record and a non-empty output
    path, and what it hands to [json.dump] is the record it returns.
    When the record is there but the file cannot be opened, the
    exception of [open] leaves the function and the record is not
    returned. *)
Theorem cli_file_discipline (url : string) (output_file : option string) :
  (forall r,
      arun rt url = inr r ->
      success r = false ->
      extract_fragrance_data rt open_w url output_file
      = inr {| result_data := None; written := None |})
  /\ (forall r data,
         arun rt url = inr r ->
         success r = true ->
         loads rt (extracted_content r) = inr data ->
         truthy data = false ->
         extract_fragrance_data rt open_w url output_file
         = inr {| result_data := None; written := None |})
  /\ (forall o item,
         extract_fragrance_data rt open_w url output_file = inr o ->
         result_data o = Some item ->
         exists r d rest,
           arun rt url = inr r
           /\ success r = true
           /\ loads rt (extracted_content r) = inr (JArr (JObj d :: rest))
           /\ normalize rt url d = inr item)
  /\ (forall o,
         extract_fragrance_data rt open_w url output_file = inr o ->
         written o
         = match result_data o, output_file with
           | Some item, Some path =>
               if String.eqb path EmptyString then None
               else Some (path, item)
           | _, _ => None
           end)
  /\ (forall r item rest out path e,
         arun rt url = inr r ->
         success r = true ->
         loads rt (extracted_content r) = inr (JArr (JObj item :: rest)) ->
         normalize rt url item = inr out ->
         output_file = Some path ->
         path <> EmptyString ->
         open_w path = inl e ->
         extract_fragrance_data rt open_w url output_file = inl e).
Proof.
  split; [|split; [|split; [|split]]].
  - intros r A S. unfold extract_fragrance_data.
    rewrite A. cbn [bind]. now rewrite S.
  - intros r data A S L T. unfold extract_fragrance_data.
    rewrite A. cbn [bind]. rewrite S, L. cbn [bind].
    unfold has_data. now rewrite T.
  - intros o item. unfold extract_fragrance_data.
    destruct (arun rt url) as [e|r]; cbn [bind]; [discriminate|].
    destruct (success r) eqn:S;
      [|intros H; injection H as <-; discriminate].
    destruct (loads rt (extracted_content r)) as [e|data] eqn:L;
      cbn [bind]; [discriminate|].
    unfold has_data.
    destruct data as [|b|n|s|l|d]; cbn [truthy];
      try (intros H; injection H as <-; discriminate).
    + destruct b; cbn [py_len bind raise];
        [discriminate | intros H; injection H as <-; discriminate].
    + destruct (Z.eqb n 0); cbn [negb py_len bind raise];
        [intros H; injection H as <-; discriminate | discriminate].
    + destruct s as [|c s];
        [intros H; injection H as <-; discriminate|].
      cbn. discriminate.
    + destruct l as [|x l];
        [intros H; injection H as <-; discriminate|].
      cbn -[normalize save_item].
      destruct x as [| | | | |d]; try discriminate.
      destruct (normalize rt url d) as [e|out] eqn:N; cbn [bind];
        [discriminate|].
      destruct (save_item open_w output_file out) as [e|file];
        cbn [bind ret]; [discriminate|].
      intros H R. injection H as <-. cbn [result_data] in R.
      injection R as <-. exists r, d, l. auto.
    + destruct d as [|kv d];
        [intros H; injection H as <-; discriminate|].
      cbn. discriminate.
  - intros o. unfold extract_fragrance_data.
    destruct (arun rt url) as [e|r]; cbn [bind]; [discriminate|].
    destruct (success r); [|intros H; now injection H as <-].
    destruct (loads rt (extracted_content r)) as [e|data]; cbn [bind];
      [discriminate|].
    destruct (has_data data) as [e|[|]]; cbn [bind]; [discriminate| |].
    2:{ intros H. now injection H as <-. }
    destruct (getitem0 data) as [e|x]; cbn [bind]; [discriminate|].
    destruct x as [| | | | |d]; try discriminate.
    destruct (normalize rt url d) as [e|out]; cbn [bind]; [discriminate|].
    unfold save_item. destruct output_file as [path|]; cbn [bind ret].
    + cbn [truthy]. destruct (String.eqb path EmptyString); cbn [negb].
      * intros H. now injection H as <-.
      * destruct (open_w path) as [e|[]]; cbn [bind ret]; [discriminate|].
        intros H. now injection H as <-.
    + intros H. now injection H as <-.
  - intros r item rest out path e A S L N -> P O.
    rewrite (proj1 (cli_on_record url (Some path) r item rest A S L)), N.
    cbn [bind save_item truthy].
    destruct (String.eqb path EmptyString) eqn:E.
    + apply String.eqb_eq in E. contradiction.
    + cbn [negb]. now rewrite O.
Qed.

End CliFacts.

Lemma cli_raises_witness :
  process_url_body Sample.rt Sample.broken_url = inl (KeyError "text")
  /\ extract_fragrance_data Sample.rt SampleCli.sample_open_w
       Sample.broken_url (Some "out.json")
     = inl (KeyError "text").
Proof.
  split; [reflexivity|].
  exact (cli_raises_what_api_reports Sample.rt SampleCli.sample_open_w
           Sample.broken_url (Some "out.json") (KeyError "text")
           (or_introl eq_refl)).
Defined.

Lemma cli_file_discipline_witness :
  extract_fragrance_data Sample.rt SampleCli.sample_open_w
    Sample.down_url (Some "out.json")
  = inr {| result_data := None; written := None |}
  /\ extract_fragrance_data Sample.rt SampleCli.sample_open_w
       Sample.empty_url (Some "out.json")
     = inr {| result_data := None; written := None |}
  /\ extract_fragrance_data Sample.rt SampleCli.sample_open_w
       Sample.zino_url (Some "out.json")
     = inr {| result_data := Some Sample.zino_out;
              written := Some ("out.json", Sample.zino_out) |}
  /\ normalize Sample.rt Sample.zino_url Sample.zino_item
     = inr Sample.zino_out
  /\ extract_fragrance_data Sample.rt SampleCli.sample_open_w
       Sample.zino_url (Some "/proc/denied.json")
     = inl (OtherException "PermissionError").
Proof.
  split.
  { exact (proj1 (cli_file_discipline Sample.rt SampleCli.sample_open_w
                    Sample.down_url (Some "out.json"))
             {| success := false; error_message := "timeout";
                extracted_content := None |} eq_refl eq_refl). }
  split.
  { exact (proj1 (proj2 (cli_file_discipline Sample.rt
                           SampleCli.sample_open_w
                           Sample.empty_url (Some "out.json")))
             {| success := true; error_message := "";
                extracted_content := Some Sample.empty_url |}
             (JArr []) eq_refl eq_refl eq_refl eq_refl). }
  split; [reflexivity|]. split; [reflexivity|].
  destruct (cli_file_discipline Sample.rt SampleCli.sample_open_w
              Sample.zino_url (Some "/proc/denied.json"))
    as (_ & _ & _ & _ & F).
  apply (F {| success := true; error_message := "";
              extracted_content := Some Sample.zino_url |}
           Sample.zino_item [] Sample.zino_out "/proc/denied.json"
           (OtherException "PermissionError")); try reflexivity.
  discriminate.
Defined.

Lemma cli_agrees_with_api_witness :
  process_url_body Sample.rt Sample.zino_url = inr Sample.zino_out
  /\ dict_in "notes" Sample.zino_out = true
  /\ extract_fragrance_data Sample.rt SampleCli.sample_open_w
       Sample.zino_url None
     = inr {| result_data := Some Sample.zino_out; written := None |}.
Proof.
  split; [reflexivity|]. split; [reflexivity|].
  exact (proj2 (cli_agrees_with_api Sample.rt SampleCli.sample_open_w
                  Sample.zino_url Sample.zino_out)
           (conj eq_refl eq_refl)).
Defined.

(* ------------------------------------------------------------------ *)
(** ** The subprocess API *)

Section SimpleFacts.

Variable rt : Runtime.
Variable run_app : string -> proc_outcome.

Lemma simple_loop_shift (urls : list string) (r0 e0 : list json) :
  simple_loop rt run_app urls (r0, e0)
  = match simple_loop rt run_app urls ([], []) with
    | inr (r, e) => inr (r0 ++ r, e0 ++ e)
    | inl x => inl x
    end.
Proof.
  revert r0 e0. induction urls as [|u urls IH]; intros r0 e0.
  - cbn [simple_loop ret]. now rewrite !app_nil_r.
  - cbn [simple_loop simple_collect].
    destruct (py_in_str "error" (run_scraper rt run_app u)) as [x|[|]];
      cbn [bind ret app]; [reflexivity| |].
    + rewrite IH. rewrite (IH [] [_]).
      destruct (simple_loop rt run_app urls ([], [])) as [x|[r e]];
        [reflexivity|].
      cbn [app]. now rewrite <- app_assoc.
    + rewrite IH. rewrite (IH [_] []).
      destruct (simple_loop rt run_app urls ([], [])) as [x|[r e]];
        [reflexivity|].
      cbn [app]. now rewrite <- app_assoc.
Qed.

Lemma simple_loop_app (before after : list string) (acc : list json * list json) :
  simple_loop rt run_app (before ++ after) acc
  = (acc' <- simple_loop rt run_app before acc ;;
     simple_loop rt run_app after acc').
Proof.
  revert acc. induction before as [|u before IH]; intros acc;
    cbn [app simple_loop]; [reflexivity|].
  destruct (simple_collect rt run_app acc u) as [x|acc']; cbn [bind];
    [reflexivity | apply IH].
Qed.

(** X16: when the loop of simple_api.py ends without an exception, the
    lengths of [results] and [errors] add up to the number of URLs, and
    [results] followed by [errors] is a rearrangement of the values
    [run_scraper] returned, one for each URL. *)
Theorem simple_batch_partition (urls : list string) (rs es : list json) :
  simple_scrape_fragrances rt run_app urls = inr (rs, es) ->
  List.length rs + List.length es = List.length urls
  /\ Permutation (rs ++ es) (map (run_scraper rt run_app) urls).
Proof.
  unfold simple_scrape_fragrances. revert rs es. induction urls as [|u urls IH]; intros rs es H.
  - injection H as <- <-. split; [reflexivity | constructor].
  - cbn [simple_loop simple_collect] in H.
    destruct (py_in_str "error" (run_scraper rt run_app u)) as [x|[|]];
      cbn [bind ret app] in H; [discriminate| |].
    + rewrite simple_loop_shift in H.
      destruct (simple_loop rt run_app urls ([], [])) as [x|[r e]];
        [discriminate|].
      injection H as <- <-. destruct (IH r e eq_refl) as [L P].
      cbn [app length map]. split; [lia|].
      apply Permutation_sym, Permutation_cons_app, Permutation_sym, P.
    + rewrite simple_loop_shift in H.
      destruct (simple_loop rt run_app urls ([], [])) as [x|[r e]];
        [discriminate|].
      injection H as <- <-. destruct (IH r e eq_refl) as [L P].
      cbn [app length map]. split; [lia|]. now constructor.
Qed.

(** X17: a scraper run that fails (non-zero exit status, an exception
    around the run, or an output file that cannot be decoded, such as
    the empty file left when nothing was extracted) gives the error
    entry with the matching message; in a batch whose other URLs the
    loop gets through, it adds that one entry to [errors], and the
    entries of the others are those of the batches before and after
    it. *)
Theorem simple_failed_unit (url msg : string) (before after : list string)
        (r1 e1 r2 e2 : list json) :
  scraper_failure rt run_app url msg ->
  simple_scrape_fragrances rt run_app before = inr (r1, e1) ->
  simple_scrape_fragrances rt run_app after = inr (r2, e2) ->
  run_scraper rt run_app url = JObj (error_entry msg)
  /\ simple_scrape_fragrances rt run_app (before ++ url :: after)
     = inr (r1 ++ r2, e1 ++ JObj (error_entry msg) :: e2).
Proof.
  unfold simple_scrape_fragrances. intros F B A.
  assert (R : run_scraper rt run_app url = JObj (error_entry msg)).
  { unfold run_scraper.
    destruct F as [(stderr & P & ->)|[(e & P & ->)|(text & e & P & L & ->)]];
      rewrite P; [reflexivity | reflexivity | now rewrite L]. }
  split; [exact R|].
  rewrite simple_loop_app, B. cbn [bind simple_loop simple_collect].
  rewrite R. cbn [py_in_str error_entry dict_in bind ret].
  change (String.eqb "error" "error") with true. cbn [orb bind ret].
  rewrite simple_loop_shift, A. now rewrite <- app_assoc.
Qed.

End SimpleFacts.

Lemma simple_batch_partition_witness :
  simple_scrape_fragrances SampleCli.rt SampleCli.sample_run_app
    [Sample.zino_url; Sample.broken_url; Sample.swim_url]
  = inr ([JObj Sample.zino_out; JObj Sample.musk_out],
         [JObj (error_entry
                  ("Failed to scrape " ++ Sample.broken_url
                     ++ ": KeyError: 'text'"))])
  /\ List.length [JObj Sample.zino_out; JObj Sample.musk_out] + 1 = 3.
Proof.
  split; [reflexivity|].
  exact (proj1 (simple_batch_partition SampleCli.rt SampleCli.sample_run_app
                  [Sample.zino_url; Sample.broken_url; Sample.swim_url]
                  _ _ eq_refl)).
Defined.

Lemma simple_failed_unit_witness :
  scraper_failure SampleCli.rt SampleCli.sample_run_app Sample.empty_url
    ("Error processing " ++ Sample.empty_url ++ ": Expecting value")
  /\ simple_scrape_fragrances SampleCli.rt SampleCli.sample_run_app
       [Sample.zino_url; Sample.empty_url; Sample.swim_url]
     = inr ([JObj Sample.zino_out; JObj Sample.musk_out],
            [JObj (error_entry
                     ("Error processing " ++ Sample.empty_url
                        ++ ": Expecting value"))]).
Proof.
  assert (F : scraper_failure SampleCli.rt SampleCli.sample_run_app
                Sample.empty_url
                ("Error processing " ++ Sample.empty_url
                   ++ ": Expecting value")).
  { right. right. exists EmptyString, (JSONDecodeError "Expecting value").
    repeat split. }
  split; [exact F|].
  exact (proj2 (simple_failed_unit SampleCli.rt SampleCli.sample_run_app
                  Sample.empty_url _ [Sample.zino_url] [Sample.swim_url]
                  [JObj Sample.zino_out] [] [JObj Sample.musk_out] []
                  F eq_refl eq_refl)).
Defined.

(* ------------------------------------------------------------------ *)
(** ** When the cleanup removes one occurrence only *)

Lemma replace_scan_skip (old new u : string) (k : nat) :
  PyStr.replace_scan old new k u
  = PyStr.replace_scan old new 0 (drop_chars k u).
Proof.
  revert k. induction u as [|c u IH]; intros k.
  - now destruct k.
  - destruct k as [|k]; [reflexivity|].
    cbn [PyStr.replace_scan drop_chars]. apply IH.
Qed.

Lemma contains_drop_chars (s t : string) (k : nat) :
  contains s t = false -> contains s (drop_chars k t) = false.
Proof.
  revert t. induction k as [|k IH]; intros t C; [now destruct t|].
  destruct t as [|c t]; [exact C|].
  cbn [drop_chars]. apply IH.
  cbn [contains] in C. now apply orb_false_iff in C.
Qed.

Lemma replace_once (a : ascii) (s t : string) :
  contains (String a s) (remove_first (String a s) t) = false ->
  PyStr.replace (String a s) EmptyString t = remove_first (String a s) t.
Proof.
  unfold PyStr.replace. induction t as [|c t IH]; [reflexivity|].
  cbn [remove_first PyStr.replace_scan].
  destruct (PyStr.startswith (String a s) (String c t)).
  - intros C. cbn [append String.length drop_chars] in *.
    replace (S (String.length s) - 1) with (String.length s) by lia.
    rewrite replace_scan_skip.
    apply (replace_absent (String a s)). exact C.
  - intros C. f_equal. apply IH.
    cbn [contains] in C. now apply orb_false_iff in C.
Qed.

Lemma identity_keeps_sex_title (item item1 : dict) (h n : json) (f : string) :
  flatten_accords item = inr item1 ->
  In f ["sex"; "title"] ->
  dict_get f (dict_set "perfume_name" n
                (dict_set "house" h (classify_notes item1)))
  = dict_get f item.
Proof.
  intros F [<-|[<-|[]]].
  - rewrite !dict_get_set_neq by reflexivity. rewrite classify_notes_get.
    change (String.eqb "notes" "sex") with false.
    change (existsb (fun f => String.eqb f "sex") removed_fields)
      with false.
    cbv iota. now apply (flatten_accords_get _ _ _ F).
  - rewrite !dict_get_set_neq by reflexivity. rewrite classify_notes_get.
    change (String.eqb "notes" "title") with false.
    change (existsb (fun f => String.eqb f "title") removed_fields)
      with false.
    cbv iota. now apply (flatten_accords_get _ _ _ F).
Qed.

(** X18: when the path has the perfume shape, [title] and [sex] are
    strings, [sex] is non-empty, and the title without the first
    occurrence of [sex] holds no further occurrence, the output [title]
    is the title with that first occurrence removed: under this
    condition removing every occurrence and removing the first one are
    the same. *)
Theorem title_first_occurrence (rt : Runtime) (url : string)
        (item out : dict) (parts : list string) (t s : string) :
  path_parts_of rt url = inr parts ->
  perfume_shape parts = true ->
  dict_get "title" item = Some (JStr t) ->
  dict_get "sex" item = Some (JStr s) ->
  s <> EmptyString ->
  contains s (remove_first s t) = false ->
  normalize rt url item = inr out ->
  dict_get "title" out = Some (JStr (remove_first s t)).
Proof.
  intros P Sh Gt Gs Ns C H.
  destruct (normalize_inv _ _ _ _ H) as (item1 & parts' & F & P' & D).
  rewrite P in P'. injection P' as <-.
  unfold derive_identity in D. rewrite Sh in D.
  rewrite (clean_title_strings _ t s) in D.
  - injection D as <-. rewrite dict_get_set_eq.
    destruct s as [|a s]; [contradiction|]. now rewrite replace_once.
  - rewrite <- Gt. apply (identity_keeps_sex_title _ _ _ _ _ F). cbn; tauto.
  - rewrite <- Gs. apply (identity_keeps_sex_title _ _ _ _ _ F). cbn; tauto.
  - exact Ns.
Qed.

Lemma title_first_occurrence_witness :
  normalize Sample.rt Sample.zino_url Sample.zino_item = inr Sample.zino_out
  /\ remove_first "for women and men" "Zino for women and men" = "Zino "
  /\ dict_get "title" Sample.zino_out = Some (JStr "Zino ").
Proof.
  split; [reflexivity|]. split; [reflexivity|].
  apply (title_first_occurrence Sample.rt Sample.zino_url Sample.zino_item
           Sample.zino_out
           [""; "perfume"; "Davidoff"; "Zino-Davidoff-590.html"]
           "Zino for women and men" "for women and men");
    try reflexivity.
  discriminate.
Defined.
